(** * address_book_bot: contact fields, records and the address book

    A shallow embedding of [address_book_bot.py].

    - A Python [str] is a Rocq [string]; one [ascii] stands for one code
      point below 256 (Basic Latin and Latin-1 Supplement).  Strings with
      code points above U+00FF are outside the alphabet of this model.
    - Python integers are [Z].
    - A raised exception is the [Raise] case of [outcome]; methods that
      mutate [self] return the new object next to their outcome.
    - A [dict] is an association list in insertion order.
    - The files are a map from names to bytes.  [pickle.dumps] and what
      [pickle.load] builds from the opcodes of a stream are parameters;
      how [pickle.load] reads the head of a stream is modelled.  Whether
      the operating system lets a file be written is a parameter of the
      commands. *)

From Stdlib Require Import ZArith String Ascii List Bool Lia DecimalString.
From stdpp Require Import base tactics option list list_numbers strings gmap.

Set Default Proof Using "Type".

(** ** Exceptions and outcomes *)

Inductive exn : Type :=
  | ValueError (msg : string)
  | AttributeError (msg : string)
  | KeyError (key : string)
  | IndexError
  | FileNotFoundError
  | EOFError
  | UnpicklingError
  | OSError (errno : Z) (strerror : string) (filename : option string).

Inductive outcome (A : Type) : Type :=
  | Return (a : A)
  | Raise (e : exn).
Arguments Return {A} a.
Arguments Raise {A} e.

Global Instance outcome_ret : MRet outcome := fun A a => Return a.
Global Instance outcome_bind : MBind outcome := fun A B f m =>
  match m with
  | Return a => f a
  | Raise e => Raise e
  end.
Global Instance outcome_fmap : FMap outcome := fun A B f m =>
  match m with
  | Return a => Return (f a)
  | Raise e => Raise e
  end.

(** [try: body except: handler]: the handler answers [Some] for the
    exception classes of the [except] clause and [None] for the others,
    which propagate. *)
Definition try_except {A} (body : outcome A) (handler : exn -> option (outcome A))
  : outcome A :=
  match body with
  | Return a => Return a
  | Raise e => match handler e with
               | Some r => r
               | None => Raise e
               end
  end.

Definition raises {A} (m : outcome A) : Prop := exists e, m = Raise e.

(** ** Strings *)

Module PyStr.

(** [ord(c)] *)
Definition ord (c : ascii) : Z := Z.of_N (N_of_ascii c).

(** Code points below 256 with Unicode Numeric_Type=Decimal: the ten
    digits U+0030..U+0039 and nothing else. *)
Definition char_isdecimal (c : ascii) : bool :=
  ((48 <=? ord c) && (ord c <=? 57))%Z.

(** Code points below 256 with Numeric_Type=Digit or Decimal, the
    characters [str.isdigit] accepts: the decimal digits and the
    superscripts U+00B2, U+00B3 and U+00B9. *)
Definition char_isdigit (c : ascii) : bool :=
  char_isdecimal c || ((ord c =? 178) || (ord c =? 179) || (ord c =? 185))%Z.

Fixpoint all_chars (p : ascii -> bool) (s : string) : bool :=
  match s with
  | EmptyString => true
  | String c s' => p c && all_chars p s'
  end.

(** [bool(s)]: a string is true when it is not empty. *)
Definition truthy (s : string) : bool :=
  match s with
  | EmptyString => false
  | String _ _ => true
  end.

(** [s.isdigit()]: at least one character, and all of them digits. *)
Definition isdigit (s : string) : bool := truthy s && all_chars char_isdigit s.

(** [s.isdecimal()]. *)
Definition isdecimal (s : string) : bool := truthy s && all_chars char_isdecimal s.

Definition len (s : string) : Z := Z.of_nat (String.length s).

(** [str(n)] for an integer: its decimal numeral. *)
Definition of_int (n : Z) : string := NilZero.string_of_int (Z.to_int n).

Fixpoint In_str (c : ascii) (s : string) : Prop :=
  match s with
  | EmptyString => False
  | String c' s' => c' = c \/ In_str c s'
  end.

End PyStr.

(** ** Fields *)

(** [Field]: an object with one attribute, [_value], behind the property
    [value].  [value] is the getter, [return self._value]; [set_value] is
    the setter, [self._value = new_value].  The subclasses inherit both
    and override neither. *)
Class Field (F V : Type) := {
  value : F -> V;
  set_value : V -> F -> F;
}.

Record Name := mkName { name_value : string }.
Record Phone := mkPhone { phone_value : string }.

Global Instance Name_field : Field Name string :=
  {| value := name_value; set_value := fun new_value self => mkName new_value |}.
Global Instance Phone_field : Field Phone string :=
  {| value := phone_value; set_value := fun new_value self => mkPhone new_value |}.

(** [Name.__init__] *)
Definition Name_init (v : string) : outcome Name :=
  if negb (PyStr.truthy v) then Raise (ValueError "Name cannot be empty")
  else Return (mkName v).

(** [Phone.validate_phone_format]:
    [if value and not value.isdigit() or len(value) != 10: raise]. *)
Definition validate_phone_format (v : string) : outcome unit :=
  if (PyStr.truthy v && negb (PyStr.isdigit v)) || negb (PyStr.len v =? 10)%Z
  then Raise (ValueError "Phone number should be a 10-digit number")
  else Return tt.

(** [Phone.__init__] *)
Definition Phone_init (v : string) : outcome Phone :=
  _ ← validate_phone_format v; Return (mkPhone v).

(** [Phone.__eq__] against another [Phone]. *)
Definition Phone_eq (a b : Phone) : bool := String.eqb (value a) (value b).

(** ** [datetime] *)

Module Datetime.
Local Open Scope Z_scope.

Record datetime := mkDatetime {
  year : Z; month : Z; day : Z;
  hour : Z; minute : Z; second : Z; microsecond : Z;
}.

Definition MINYEAR : Z := 1.
Definition MAXYEAR : Z := 9999.

Definition _is_leap (y : Z) : bool :=
  (y mod 4 =? 0) && (negb (y mod 100 =? 0) || (y mod 400 =? 0)).

Definition _DAYS_IN_MONTH (m : Z) : Z :=
  match m with
  | 1 => 31 | 2 => 28 | 3 => 31 | 4 => 30 | 5 => 31 | 6 => 30
  | 7 => 31 | 8 => 31 | 9 => 30 | 10 => 31 | 11 => 30 | 12 => 31
  | _ => -1
  end.

Definition _DAYS_BEFORE_MONTH (m : Z) : Z :=
  match m with
  | 1 => 0 | 2 => 31 | 3 => 59 | 4 => 90 | 5 => 120 | 6 => 151
  | 7 => 181 | 8 => 212 | 9 => 243 | 10 => 273 | 11 => 304 | 12 => 334
  | _ => -1
  end.

Definition _days_before_year (y : Z) : Z :=
  let y := y - 1 in y * 365 + y / 4 - y / 100 + y / 400.

Definition _days_in_month (y m : Z) : Z :=
  if (m =? 2) && _is_leap y then 29 else _DAYS_IN_MONTH m.

Definition _days_before_month (y m : Z) : Z :=
  _DAYS_BEFORE_MONTH m + (if (2 <? m) && _is_leap y then 1 else 0).

Definition _ymd2ord (y m d : Z) : Z :=
  _days_before_year y + _days_before_month y m + d.

(** [_check_date_fields], as a test. *)
Definition date_fields_ok (y m d : Z) : bool :=
  (MINYEAR <=? y) && (y <=? MAXYEAR) && (1 <=? m) && (m <=? 12)
  && (1 <=? d) && (d <=? _days_in_month y m).

(** [datetime(year, month, day)] *)
Definition datetime_init (y m d : Z) : outcome datetime :=
  if negb ((MINYEAR <=? y) && (y <=? MAXYEAR))
  then Raise (ValueError ("year " ++ PyStr.of_int y ++ " is out of range"))
  else if negb ((1 <=? m) && (m <=? 12))
  then Raise (ValueError "month must be in 1..12")
  else if negb ((1 <=? d) && (d <=? _days_in_month y m))
  then Raise (ValueError "day is out of range for month")
  else Return (mkDatetime y m d 0 0 0 0).

Definition toordinal (t : datetime) : Z := _ymd2ord (year t) (month t) (day t).

(** Comparison of the field tuples, as [datetime._cmp] does. *)
Fixpoint tuple_ltb (a b : list Z) : bool :=
  match a, b with
  | x :: a', y :: b' => (x <? y) || ((x =? y) && tuple_ltb a' b')
  | [], _ :: _ => true
  | _, [] => false
  end.

Definition fields (t : datetime) : list Z :=
  [year t; month t; day t; hour t; minute t; second t; microsecond t].

(** [a < b] *)
Definition lt (a b : datetime) : bool := tuple_ltb (fields a) (fields b).

(** [(a - b).days]: the difference as a normalised [timedelta]. *)
Definition sub_days (a b : datetime) : Z :=
  let secs t := second t + minute t * 60 + hour t * 3600 in
  let us := ((toordinal a - toordinal b) * 86400 + (secs a - secs b)) * 1000000
            + (microsecond a - microsecond b) in
  us / (86400 * 1000000).

End Datetime.

(** ** [datetime.strptime(value, '%d.%m.%Y')] *)

Module Strptime.
Import PyStr Datetime.

Definition is_char (x c : ascii) : bool := (ord c =? ord x)%Z.
Definition in_range (lo hi c : ascii) : bool :=
  ((ord lo <=? ord c) && (ord c <=? ord hi))%Z.

(** One alternative of a group: a fixed run of character classes.  The
    answer is the matched text and the rest of the input. *)
Fixpoint match_classes (cls : list (ascii -> bool)) (s : string)
  : option (string * string) :=
  match cls, s with
  | [], _ => Some (EmptyString, s)
  | p :: cls', String c s' =>
      if p c then
        match match_classes cls' s' with
        | Some (m, r) => Some (String c m, r)
        | None => None
        end
      else None
  | _ :: _, EmptyString => None
  end.

(** A group [a1|a2|...]: the matches of its alternatives, in the order a
    backtracking matcher tries them. *)
Definition re_match (alts : list (list (ascii -> bool))) (s : string)
  : list (string * string) :=
  omap (fun a => match_classes a s) alts.

(** [%d]: [3[0-1]|[1-2]\d|0[1-9]|[1-9]| [1-9]] *)
Definition re_d : list (list (ascii -> bool)) :=
  [ [is_char "3"; in_range "0" "1"];
    [in_range "1" "2"; char_isdecimal];
    [is_char "0"; in_range "1" "9"];
    [in_range "1" "9"];
    [is_char " "; in_range "1" "9"] ].

(** [%m]: [1[0-2]|0[1-9]|[1-9]] *)
Definition re_m : list (list (ascii -> bool)) :=
  [ [is_char "1"; in_range "0" "2"];
    [is_char "0"; in_range "1" "9"];
    [in_range "1" "9"] ].

(** [%Y]: [\d\d\d\d] *)
Definition re_Y : list (list (ascii -> bool)) :=
  [ [char_isdecimal; char_isdecimal; char_isdecimal; char_isdecimal] ].

(** The escaped literal [\.] *)
Definition re_dot : list (list (ascii -> bool)) := [ [is_char "."] ].

(** The compiled format [(?P<d>..)\.(?P<m>..)\.(?P<Y>..)] applied at the
    start of the input: every way to match, first choice first, with
    the three groups and the input left over. *)
Definition format_regex (s : string) : list (string * string * string * string) :=
  '(d, s1) ← re_match re_d s;
  '(_, s2) ← re_match re_dot s1;
  '(m, s3) ← re_match re_m s2;
  '(_, s4) ← re_match re_dot s3;
  '(y, s5) ← re_match re_Y s4;
  [(d, m, y, s5)].

Definition digit_value (c : ascii) : Z := (ord c - 48)%Z.

Fixpoint int_digits (acc : Z) (s : string) : Z :=
  match s with
  | EmptyString => acc
  | String c s' => int_digits (acc * 10 + digit_value c)%Z s'
  end.

Fixpoint lstrip (s : string) : string :=
  match s with
  | String c s' => if is_char " " c then lstrip s' else s
  | EmptyString => EmptyString
  end.

(** [int(s)] for an unsigned decimal numeral after optional blanks. *)
Definition py_int (s : string) : outcome Z :=
  let t := lstrip s in
  if isdecimal t then Return (int_digits 0 t)
  else Raise (ValueError "invalid literal for int() with base 10").

(** [_strptime]: match the format at the start, refuse input left over,
    convert the groups, and build the date once to check it. *)
Definition _strptime (data_string : string) : outcome (Z * Z * Z) :=
  match head (format_regex data_string) with
  | None => Raise (ValueError "time data does not match format")
  | Some (d, m, y, rest) =>
      if truthy rest then Raise (ValueError "unconverted data remains")
      else
        year ← py_int y;
        month ← py_int m;
        day ← py_int d;
        _ ← datetime_init year month day;
        Return (year, month, day)
  end.

Definition strptime (data_string : string) : outcome datetime :=
  '(y, m, d) ← _strptime data_string;
  datetime_init y m d.

End Strptime.

(** A field value as Python sees it: the text the constructor stores, or
    a [datetime]. *)
Inductive pyval : Type :=
  | VStr (s : string)
  | VDatetime (t : Datetime.datetime).

Record Birthday := mkBirthday { birthday_value : pyval }.

Global Instance Birthday_field : Field Birthday pyval :=
  {| value := birthday_value;
     set_value := fun new_value self => mkBirthday new_value |}.

(** [Birthday.validate_birthday_format]: a [ValueError] of [strptime] is
    replaced by the class's own. *)
Definition validate_birthday_format (v : string) : outcome Datetime.datetime :=
  try_except (Strptime.strptime v)
    (fun e => match e with
              | ValueError _ => Some (Raise (ValueError "Birthday is not a date"))
              | _ => None
              end).

(** [Birthday.__init__]: the parsed date is dropped and the text stored. *)
Definition Birthday_init (v : string) : outcome Birthday :=
  _ ← validate_birthday_format v; Return (mkBirthday (VStr v)).

(** ** [Record] *)

Record Record_ := mkRecord {
  name : Name;
  phones : list Phone;
  birthday : option Birthday;
}.

Definition with_phones (ps : list Phone) (self : Record_) : Record_ :=
  mkRecord (name self) ps (birthday self).

(** [Record.__init__(name, birthday=None)] *)
Definition Record_init (name_arg : string) (birthday_arg : option string)
  : outcome Record_ :=
  n ← Name_init name_arg;
  b ← match birthday_arg with
       | Some s => if PyStr.truthy s then Some <$> Birthday_init s else Return None
       | None => Return None
       end;
  Return (mkRecord n [] b).

(** [add_phone] *)
Definition add_phone (phone_number : string) (self : Record_)
  : outcome unit * Record_ :=
  match Phone_init phone_number with
  | Return phone => (Return tt, with_phones (phones self ++ [phone]) self)
  | Raise e => (Raise e, self)
  end.

(** [list.remove(x)]: drops the first element equal to [x]. *)
Fixpoint list_remove (x : Phone) (l : list Phone) : outcome (list Phone) :=
  match l with
  | [] => Raise (ValueError "list.remove(x): x not in list")
  | y :: l' => if Phone_eq y x then Return l'
               else (fun r => y :: r) <$> list_remove x l'
  end.

(** [remove_phone] *)
Definition remove_phone (phone_number : string) (self : Record_)
  : outcome unit * Record_ :=
  match List.find (fun phone => String.eqb (value phone) phone_number) (phones self) with
  | Some phone =>
      match list_remove phone (phones self) with
      | Return ps => (Return tt, with_phones ps self)
      | Raise e => (Raise e, self)
      end
  | None => (Return tt, self)
  end.

(** [find_phone]: the argument is made a [Phone] at every turn of the
    loop, before the comparison. *)
Fixpoint find_phone_loop (ps : list Phone) (phone_number : string)
  : outcome (option Phone) :=
  match ps with
  | [] => Return None
  | phone :: rest =>
      other ← Phone_init phone_number;
      if Phone_eq phone other then Return (Some phone)
      else find_phone_loop rest phone_number
  end.

Definition find_phone (phone_number : string) (self : Record_)
  : outcome (option Phone) :=
  find_phone_loop (phones self) phone_number.

(** The loop of [edit_phone]: [Some] with the list after the assignment
    when a phone matched (the [return]), [None] when the loop ran out. *)
Fixpoint edit_phone_loop (ps : list Phone) (old_phone_number new_phone_number : string)
  : option (list Phone) :=
  match ps with
  | [] => None
  | phone :: rest =>
      if String.eqb (value phone) old_phone_number
      then Some (set_value new_phone_number phone :: rest)
      else (fun r => phone :: r) <$> edit_phone_loop rest old_phone_number new_phone_number
  end.

Definition edit_phone (old_phone_number new_phone_number : string) (self : Record_)
  : outcome unit * Record_ :=
  match edit_phone_loop (phones self) old_phone_number new_phone_number with
  | Some ps => (Return tt, with_phones ps self)
  | None => (Raise (ValueError "Phone number to be edited was not found"), self)
  end.

(** What [days_to_birthday] returns. *)
Inductive days_result : Type :=
  | Days (n : Z)
  | NotImplemented.

Definition digit_char (n : Z) : ascii := ascii_of_N (Z.to_N (48 + n)).

(** A number below 100 on two digits, as [%d] and [%m] print it. *)
Definition pad2 (n : Z) : string :=
  String (digit_char (n / 10)) (String (digit_char (n mod 10)) EmptyString).

Inductive directive : Type := pct_d | pct_m.

(** [value.strftime(fmt)]: a method of [datetime]; a [str] has none. *)
Definition strftime (v : pyval) (fmt : directive) : outcome string :=
  match v with
  | VDatetime t => Return (pad2 (match fmt with
                                 | pct_d => Datetime.day t
                                 | pct_m => Datetime.month t
                                 end))
  | VStr _ => Raise (AttributeError "'str' object has no attribute 'strftime'")
  end.

(** [days_to_birthday]; [now] is what [datetime.now()] answers. *)
Definition days_to_birthday (now : Datetime.datetime) (self : Record_)
  : outcome days_result :=
  match birthday self with
  | Some b =>
      let today := now in
      today_birthday ←
        Datetime.datetime_init (Datetime.year today) (Datetime.month today) (Datetime.day today);
      day ← (s ← strftime (value b) pct_d; Strptime.py_int s);
      month ← (s ← strftime (value b) pct_m; Strptime.py_int s);
      let year := Datetime.year today in
      next_birthday ← Datetime.datetime_init year month day;
      next_birthday ←
        (if Datetime.lt next_birthday today_birthday
         then Datetime.datetime_init (Datetime.year today + 1) month day
         else Return next_birthday);
      let days_left := Datetime.sub_days next_birthday today_birthday in
      Return (Days days_left)
  | None => Return NotImplemented
  end.

(** ** [dict] and [list] primitives *)

(** A [dict] with [str] keys, in insertion order. *)
Abbreviation pydict V := (list (string * V)).

Section PyDict.
Context {V : Type}.
Local Abbreviation pydict := (pydict V).

Definition dict_keys (d : pydict) : list string := fst <$> d.
Definition dict_values (d : pydict) : list V := snd <$> d.

(** [k in d] *)
Fixpoint dict_contains (k : string) (d : pydict) : bool :=
  match d with
  | [] => false
  | (k', _) :: d' => String.eqb k k' || dict_contains k d'
  end.

(** [d[k]] *)
Fixpoint dict_getitem (k : string) (d : pydict) : outcome V :=
  match d with
  | [] => Raise (KeyError k)
  | (k', v) :: d' => if String.eqb k k' then Return v else dict_getitem k d'
  end.

(** [d[k] = v]: an existing key keeps its place. *)
Fixpoint dict_setitem (k : string) (v : V) (d : pydict) : pydict :=
  match d with
  | [] => [(k, v)]
  | (k', v') :: d' => if String.eqb k k' then (k', v) :: d'
                      else (k', v') :: dict_setitem k v d'
  end.

(** [del d[k]] for a key that is there. *)
Fixpoint dict_delitem (k : string) (d : pydict) : pydict :=
  match d with
  | [] => []
  | (k', v') :: d' => if String.eqb k k' then d' else (k', v') :: dict_delitem k d'
  end.

End PyDict.

(** [l[i]], with Python's negative indices. *)
Definition list_getitem {A} (l : list A) (i : Z) : outcome A :=
  let n := Z.of_nat (length l) in
  let j := if (i <? 0)%Z then (i + n)%Z else i in
  if ((j <? 0) || (n <=? j))%Z then Raise IndexError
  else match l !! Z.to_nat j with
       | Some x => Return x
       | None => Raise IndexError
       end.

(** [range(a, b)] *)
Definition py_range (a b : Z) : list Z := seqZ a (b - a).

(** [[f(i) for i in l]] *)
Fixpoint comprehension {A B} (f : A -> outcome B) (l : list A) : outcome (list B) :=
  match l with
  | [] => Return []
  | x :: l' => y ← f x; ys ← comprehension f l'; Return (y :: ys)
  end.

(** ** [AddressBook] *)

Record AddressBook := mkAddressBook { data : pydict Record_ }.

Definition AddressBook_init : AddressBook := mkAddressBook [].

(** [add_record] *)
Definition add_record (record : Record_) (self : AddressBook) : AddressBook :=
  let record_name := value (name record) in
  mkAddressBook (dict_setitem record_name record (data self)).

(** [find] *)
Definition find (name_arg : string) (self : AddressBook) : outcome (option Record_) :=
  if dict_contains name_arg (data self)
  then Some <$> dict_getitem name_arg (data self)
  else Return None.

(** [delete] *)
Definition delete (name_arg : string) (self : AddressBook) : AddressBook :=
  if dict_contains name_arg (data self)
  then mkAddressBook (dict_delitem name_arg (data self))
  else self.

(** The frame of the generator [iterate] between two [yield]s. *)
Record iterate_frame := mkFrame {
  keys : list string;
  records : Z;
  all_records : Z;
}.

(** The code of [iterate] before its loop. *)
Definition iterate_enter (self : AddressBook) : iterate_frame :=
  let keys := dict_keys (data self) in
  mkFrame keys 0 (Z.of_nat (length keys)).

(** An element of a page: [self.data[keys[i]]]. *)
Definition page_elem (self : AddressBook) (ks : list string) (i : Z) : outcome Record_ :=
  k ← list_getitem ks i; dict_getitem k (data self).

(** One turn of the [while] loop: the page yielded and the frame after
    [records += records_per_iteration], or [None] when the loop is over
    and the generator stops. *)
Definition iterate_next (self : AddressBook) (records_per_iteration : Z)
    (fr : iterate_frame) : outcome (option (list Record_ * iterate_frame)) :=
  if (records fr <? all_records fr)%Z then
    page ← comprehension (page_elem self (keys fr))
              (py_range (records fr)
                 (Z.min (records fr + records_per_iteration) (all_records fr)));
    Return (Some (page, mkFrame (keys fr) (records fr + records_per_iteration)
                                (all_records fr)))
  else Return None.

(** Running the generator to its end in at most [fuel] turns: the pages
    it yields, the exception that stops it, or [None] when [fuel] turns
    were not enough. *)
Fixpoint iterate_run (fuel : nat) (self : AddressBook) (records_per_iteration : Z)
    (fr : iterate_frame) : option (outcome (list (list Record_))) :=
  match fuel with
  | O => None
  | S fuel' =>
      match iterate_next self records_per_iteration fr with
      | Raise e => Some (Raise e)
      | Return None => Some (Return [])
      | Return (Some (page, fr')) =>
          match iterate_run fuel' self records_per_iteration fr' with
          | Some (Return pages) => Some (Return (page :: pages))
          | other => other
          end
      end
  end.

(** [list(self.iterate(records_per_iteration))] *)
Definition iterate (fuel : nat) (self : AddressBook) (records_per_iteration : Z)
  : option (outcome (list (list Record_))) :=
  iterate_run fuel self records_per_iteration (iterate_enter self).

(** ** Persistence *)

(** The files of the working directory, by name. *)
Abbreviation filesystem := (gmap string (list Byte.byte)).

Section Persistence.
(** [pickle.dumps] and [pickle.loads] on the [data] of an address book.
    A load answers the object, or raises [EOFError] when it runs out of
    input where an opcode should start, or another exception. *)
Variable pickle_dumps : pydict Record_ -> list Byte.byte.
Variable pickle_loads : list Byte.byte -> outcome (pydict Record_).

(** [open(filename, "rb")] followed by reading the file. *)
Definition open_rb (fs : filesystem) (filename : string) : outcome (list Byte.byte) :=
  match fs !! filename with
  | Some bytes => Return bytes
  | None => Raise FileNotFoundError
  end.

(** [write_to_file]: the file is created or replaced. *)
Definition write_to_file (self : AddressBook) (filename : string) (fs : filesystem)
  : filesystem :=
  <[filename := pickle_dumps (data self)]> fs.

(** [read_contacts_from_file] *)
Definition read_contacts_from_file (fs : filesystem) (filename : string)
  : outcome AddressBook :=
  try_except
    (fh ← open_rb fs filename;
     data ← pickle_loads fh;
     let address_book := mkAddressBook data in
     Return address_book)
    (fun err => match err with
                | FileNotFoundError | EOFError => Some (Return AddressBook_init)
                | _ => None
                end).
End Persistence.

(** ** A reference codec

    A self-delimiting byte encoding of the [data] of an address book, to
    stand for [pickle] where a concrete codec is wanted.  Numbers are in
    unary, texts and lists carry their length in front. *)

Module RefCodec.
Import Byte.

Definition parser (A : Type) : Type := list byte -> option (A * list byte).

Definition enc_nat (n : nat) : list byte := replicate n x01 ++ [x00].

Fixpoint dec_nat (bs : list byte) : option (nat * list byte) :=
  match bs with
  | x01 :: bs' => match dec_nat bs' with
                  | Some (n, r) => Some (S n, r)
                  | None => None
                  end
  | x00 :: bs' => Some (O, bs')
  | _ => None
  end.

Definition enc_Z (z : Z) : list byte :=
  (if (z <? 0)%Z then x01 else x00) :: enc_nat (Z.abs_nat z).

Definition dec_Z : parser Z := fun bs =>
  match bs with
  | sign :: bs' =>
      match dec_nat bs' with
      | Some (n, r) =>
          Some (if Byte.eqb sign x01 then (- Z.of_nat n)%Z else Z.of_nat n, r)
      | None => None
      end
  | [] => None
  end.

Definition enc_str (s : string) : list byte :=
  enc_nat (String.length s) ++ list_byte_of_string s.

Definition dec_str : parser string := fun bs =>
  match dec_nat bs with
  | Some (n, r) =>
      if (n <=? length r)%nat
      then Some (string_of_list_byte (take n r), drop n r)
      else None
  | None => None
  end.

Fixpoint enc_all {A} (enc : A -> list byte) (l : list A) : list byte :=
  match l with
  | [] => []
  | x :: l' => enc x ++ enc_all enc l'
  end.

Definition enc_list {A} (enc : A -> list byte) (l : list A) : list byte :=
  enc_nat (length l) ++ enc_all enc l.

Fixpoint dec_times {A} (dec : parser A) (n : nat) : parser (list A) := fun bs =>
  match n with
  | O => Some ([], bs)
  | S n' =>
      match dec bs with
      | Some (x, r) => match dec_times dec n' r with
                       | Some (xs, r') => Some (x :: xs, r')
                       | None => None
                       end
      | None => None
      end
  end.

Definition dec_list {A} (dec : parser A) : parser (list A) := fun bs =>
  match dec_nat bs with
  | Some (n, r) => dec_times dec n r
  | None => None
  end.

Definition enc_datetime (t : Datetime.datetime) : list byte :=
  enc_all enc_Z (Datetime.fields t).

Definition dec_datetime : parser Datetime.datetime := fun bs =>
  match dec_times dec_Z 7 bs with
  | Some ([y; mo; d; h; mi; s; us], r) => Some (Datetime.mkDatetime y mo d h mi s us, r)
  | _ => None
  end.

Definition enc_pyval (v : pyval) : list byte :=
  match v with
  | VStr s => x00 :: enc_str s
  | VDatetime t => x01 :: enc_datetime t
  end.

Definition dec_pyval : parser pyval := fun bs =>
  match bs with
  | x00 :: bs' => match dec_str bs' with
                  | Some (s, r) => Some (VStr s, r)
                  | None => None
                  end
  | x01 :: bs' => match dec_datetime bs' with
                  | Some (t, r) => Some (VDatetime t, r)
                  | None => None
                  end
  | _ => None
  end.

Definition enc_record (r : Record_) : list byte :=
  enc_str (value (name r))
  ++ enc_list (fun p => enc_str (value p)) (phones r)
  ++ match birthday r with
     | None => [x00]
     | Some b => x01 :: enc_pyval (value b)
     end.

Definition dec_record : parser Record_ := fun bs =>
  match dec_str bs with
  | Some (n, r1) =>
      match dec_list dec_str r1 with
      | Some (ps, x00 :: r2) => Some (mkRecord (mkName n) (mkPhone <$> ps) None, r2)
      | Some (ps, x01 :: r2) =>
          match dec_pyval r2 with
          | Some (v, r3) =>
              Some (mkRecord (mkName n) (mkPhone <$> ps) (Some (mkBirthday v)), r3)
          | None => None
          end
      | _ => None
      end
  | None => None
  end.

Definition dumps (d : pydict Record_) : list byte :=
  enc_list (fun kv => enc_str (fst kv) ++ enc_record (snd kv)) d.

Definition loads (bs : list byte) : outcome (pydict Record_) :=
  match bs with
  | [] => Raise EOFError
  | _ =>
      match dec_list (fun bs => match dec_str bs with
                                | Some (k, r) =>
                                    match dec_record r with
                                    | Some (v, r') => Some ((k, v), r')
                                    | None => None
                                    end
                                | None => None
                                end) bs with
      | Some (d, []) => Return d
      | _ => Raise UnpicklingError
      end
  end.

End RefCodec.

(** ** How [pickle.load] reads the head of a file

    The unpickler reads one opcode after the other, and each opcode reads
    its own operand.  When the input ends where an opcode should start,
    [load] raises [EOFError] ("Ran out of input"); when it ends inside an
    operand, or inside a frame whose length was announced, [load] raises
    [UnpicklingError] ("pickle data was truncated").  A dump starts with
    the opcode [PROTO] and one byte for the protocol, at most 5; from
    protocol 4 on, a dump of more than a few bytes has the opcode [FRAME]
    next, with the length of the frame in eight bytes, low byte first,
    and [load] reads the whole frame before it goes on.

    [load_head] gives the exception with which [load] stops in this head
    when the file ends in it, and [None] when the head is read and the
    opcodes that follow decide; what they build is the parameter [run]
    of [load]. *)

Module Unpickler.
Import Byte.









End Unpickler.

(** ** Vocabulary of the properties, and sample data *)

(** U+00B2 SUPERSCRIPT TWO. *)
Definition superscript_two : ascii := ascii_of_N 178.

Definition ten_superscripts : string :=
  Eval cbv in
    (fix rep (n : nat) : string :=
       match n with
       | O => EmptyString
       | S n' => String superscript_two (rep n')
       end) 10%nat.

(** A record with a repeated phone. *)
Definition sample_record : Record_ :=
  mkRecord (mkName "Ann")
    [mkPhone "1234567890"; mkPhone "5550001111"; mkPhone "1234567890"] None.

(** The index of the first phone of [ps] whose value is [old]. *)
Definition first_match (old : string) (ps : list Phone) (i : nat) : Prop :=
  (exists p, ps !! i = Some p /\ value p = old)
  /\ forall j q, (j < i)%nat -> ps !! j = Some q -> value q <> old.

(** The invariant of a phone: what [validate_phone_format] lets through. *)
Definition phone_ok (p : Phone) : Prop :=
  PyStr.len (value p) = 10%Z /\ PyStr.all_chars PyStr.char_isdigit (value p) = true.

(** The invariant as the data model words it: ten decimal digits. *)
Definition phone_decimal (p : Phone) : Prop :=
  PyStr.len (value p) = 10%Z /\ PyStr.all_chars PyStr.char_isdecimal (value p) = true.

(** The operations of a record on its phones. *)
Inductive record_op : Type :=
  | OpAdd (phone_number : string)
  | OpRemove (phone_number : string)
  | OpEdit (old_phone_number new_phone_number : string).

Definition run_op (op : record_op) (self : Record_) : outcome unit * Record_ :=
  match op with
  | OpAdd n => add_phone n self
  | OpRemove n => remove_phone n self
  | OpEdit o n => edit_phone o n self
  end.

(** A sequence of calls; a call that raises leaves the record as it was
    and the caller goes on. *)
Definition run_ops (ops : list record_op) (self : Record_) : Record_ :=
  foldl (fun r op => snd (run_op op r)) self ops.

(** An [edit_phone] whose new value the phone check would let through. *)
Definition edit_new_ok (op : record_op) : Prop :=
  match op with
  | OpEdit _ new => phone_ok (mkPhone new)
  | _ => True
  end.

(** Cutting a list in runs of [n]: the pages of a listing, as the
    specification words them. *)
Fixpoint chunks {A} (fuel n : nat) (l : list A) : list (list A) :=
  match fuel, l with
  | S fuel', _ :: _ => take n l :: chunks fuel' n (drop n l)
  | _, _ => []
  end.

(** A book of five records. *)
Definition sample_book : AddressBook :=
  foldl (fun book n => add_record (mkRecord (mkName n) [] None) book)
    AddressBook_init ["Ann"; "Bob"; "Cid"; "Dan"; "Eve"]%string.

(** A book with phones and a birthday. *)
Definition sample_contacts : AddressBook :=
  mkAddressBook
    [("Ann"%string, sample_record);
     ("Bob"%string,
      mkRecord (mkName "Bob") [mkPhone "0123456789"]
        (Some (mkBirthday (VStr "17.03.1990"))))].

(** 10 January 2024, a quarter to two in the afternoon. *)
Definition jan10_2024 : Datetime.datetime :=
  Datetime.mkDatetime 2024 1 10 13 45 0 7.

(** A record whose birthday holds [v]. *)
Definition born (v : pyval) : Record_ :=
  mkRecord (mkName "Ann") [] (Some (mkBirthday v)).

(** Is the day [m'.d'] earlier in the year than [m.d]? *)
Definition earlier_in_year (m' d' m d : Z) : bool :=
  ((m' <? m) || ((m' =? m) && (d' <? d)))%Z.

(** The texts a run of character classes matches. *)
Fixpoint in_classes (cls : list (ascii -> bool)) (t : string) : bool :=
  match cls, t with
  | [], EmptyString => true
  | p :: cls', String c t' => p c && in_classes cls' t'
  | _, _ => false
  end.

(** The texts a group matches. *)
Definition lang (alts : list (list (ascii -> bool))) (t : string) : bool :=
  existsb (fun cls => in_classes cls t) alts.

(** The number a run of decimal digits writes. *)
Definition text_value (s : string) : Z := Strptime.int_digits 0 s.

Definition digits (s : string) : Prop :=
  PyStr.all_chars PyStr.char_isdecimal s = true.

(** A day: one or two digits, or a blank and a digit, worth 1 to 31. *)
Definition day_text (ds : string) (dv : Z) : Prop :=
  (((1 <= String.length ds <= 2)%nat /\ digits ds /\ dv = text_value ds)
   \/ exists c, ds = String " " (String c EmptyString)
                /\ PyStr.char_isdecimal c = true
                /\ dv = text_value (String c EmptyString))
  /\ (1 <= dv <= 31)%Z.

(** A month: one or two digits, worth 1 to 12. *)
Definition month_text (ms : string) (mv : Z) : Prop :=
  (1 <= String.length ms <= 2)%nat /\ digits ms /\ mv = text_value ms
  /\ (1 <= mv <= 12)%Z.

(** A year: four digits. *)
Definition year_text (ys : string) (yv : Z) : Prop :=
  String.length ys = 4%nat /\ digits ys /\ yv = text_value ys.

(** The text is day.month.year and the three numbers are a date of the
    calendar. *)
Definition parses_as_date (s : string) : Prop :=
  exists ds ms ys dv mv yv,
    s = (ds ++ "." ++ ms ++ "." ++ ys)%string
    /\ day_text ds dv /\ month_text ms mv /\ year_text ys yv
    /\ Datetime.date_fields_ok yv mv dv = true.

(** ** A date as a reader takes it

    A second reading of "day.month.year", in the words of decimal
    notation and of the calendar.  It uses nothing of the parser and of
    the date type above, so that they can be compared with it. *)

Module DateText.
Local Open Scope Z_scope.










End DateText.

(** The number of a day text, blank in front or not. *)
Definition day_value (ds : string) : Z := Strptime.int_digits 0 (Strptime.lstrip ds).

(** No full stop in the text. *)
Definition no_dot (s : string) : bool :=
  PyStr.all_chars (fun c => negb (Strptime.is_char "." c)) s.

(** What the operations of the book keep true of its dict: the keys are
    distinct, and each record sits under its own name. *)
Definition book_ok (self : AddressBook) : Prop :=
  NoDup (dict_keys (data self))
  /\ Forall (fun kv => fst kv = value (name (snd kv))) (data self).

(** 1 March 2024 and 1 June 2023, at midnight. *)
Definition mar1_2024 : Datetime.datetime := Datetime.mkDatetime 2024 3 1 0 0 0 0.
Definition jun1_2023 : Datetime.datetime := Datetime.mkDatetime 2023 6 1 0 0 0 0.

(** ** [search] and [__str__] *)

(** [s.startswith(q)] *)
Fixpoint str_startswith (q s : string) : bool :=
  match q, s with
  | EmptyString, _ => true
  | String a q', String b s' => Ascii.eqb a b && str_startswith q' s'
  | String _ _, EmptyString => false
  end.

(** [q in s]: [q] occurs in [s] at some place. *)
Fixpoint str_contains (q s : string) : bool :=
  str_startswith q s
  || match s with
     | EmptyString => false
     | String _ s' => str_contains q s'
     end.

(** [AddressBook.search]: the records are tried in the order of the
    dict and the ones that match are appended to the result. *)
Definition search (query : string) (self : AddressBook) : list Record_ :=
  foldl (fun found_records record =>
           if str_contains query (value (name record))
              || existsb (fun phone => str_contains query (value phone)) (phones record)
           then found_records ++ [record]
           else found_records)
        [] (dict_values (data self)).

(** [sep.join(l)] *)
Fixpoint str_join (sep : string) (l : list string) : string :=
  match l with
  | [] => EmptyString
  | [x] => x
  | x :: l' => (x ++ sep ++ str_join sep l')%string
  end.

(** [Record.__str__] *)
Definition Record_str (self : Record_) : string :=
  ("Contact name: " ++ value (name self) ++ ", phones: "
   ++ str_join "; " (map value (phones self)))%string.

(** [q] is a part of [s]. *)
Definition substring (q s : string) : Prop :=
  exists a b, s = (a ++ q ++ b)%string.

(** The record has [q] in its name or in one of its phones. *)
Definition record_matches (q : string) (r : Record_) : Prop :=
  substring q (value (name r))
  \/ exists p, p ∈ phones r /\ substring q (value p).

(** The test of [search] on one record. *)
Definition matchesb (q : string) (r : Record_) : bool :=
  str_contains q (value (name r))
  || existsb (fun phone => str_contains q (value phone)) (phones r).

(** ** The commands *)

(** Code points below 256 that are letters (general category L):
    A-Z, a-z, U+00AA, U+00B5, U+00BA, U+00C0-U+00D6, U+00D8-U+00F6 and
    U+00F8-U+00FF. *)
Definition char_isalpha (c : ascii) : bool :=
  let n := PyStr.ord c in
  (((65 <=? n) && (n <=? 90)) || ((97 <=? n) && (n <=? 122))
   || (n =? 170) || (n =? 181) || (n =? 186)
   || ((192 <=? n) && (n <=? 214)) || ((216 <=? n) && (n <=? 246))
   || ((248 <=? n) && (n <=? 255)))%Z.

(** [s.isalpha()] *)
Definition str_isalpha (s : string) : bool :=
  PyStr.truthy s && PyStr.all_chars char_isalpha s.

(** Code points below 256 with a numeric value: the digits of
    [str.isdigit] and the fractions U+00BC, U+00BD and U+00BE. *)
Definition char_isnumeric (c : ascii) : bool :=
  PyStr.char_isdigit c || ((188 <=? PyStr.ord c) && (PyStr.ord c <=? 190))%Z.

(** [s.isnumeric()] *)
Definition str_isnumeric (s : string) : bool :=
  PyStr.truthy s && PyStr.all_chars char_isnumeric s.

Definition quote1 : ascii := ascii_of_N 39.
Definition quote2 : ascii := ascii_of_N 34.
Definition backslash : ascii := ascii_of_N 92.
Definition newline : ascii := ascii_of_N 10.

(** Code points below 256 that [repr] shows as they are: all but the
    control characters, U+00A0 and U+00AD. *)
Definition char_isprintable (c : ascii) : bool :=
  let n := PyStr.ord c in
  negb ((n <? 32) || ((127 <=? n) && (n <=? 160)) || (n =? 173))%Z.

Definition hex_digit (n : Z) : ascii :=
  ascii_of_N (Z.to_N (if (n <? 10)%Z then 48 + n else 87 + n)).

(** One character inside [repr(s)]. *)
Definition repr_char (quote c : ascii) : string :=
  let n := PyStr.ord c in
  if ((n =? PyStr.ord quote) || (n =? 92))%Z then String backslash (String c EmptyString)
  else if (n =? 9)%Z then String backslash "t"
  else if (n =? 10)%Z then String backslash "n"
  else if (n =? 13)%Z then String backslash "r"
  else if char_isprintable c then String c EmptyString
  else String backslash
         (String "x" (String (hex_digit (n / 16)) (String (hex_digit (n mod 16)) EmptyString))).

Fixpoint repr_body (quote : ascii) (s : string) : string :=
  match s with
  | EmptyString => EmptyString
  | String c s' => (repr_char quote c ++ repr_body quote s')%string
  end.

(** [repr(s)] of a [str]: double quotes when the text has a single quote
    and no double quote, single quotes otherwise. *)
Definition py_repr (s : string) : string :=
  let quote :=
    if str_contains (String quote1 EmptyString) s
       && negb (str_contains (String quote2 EmptyString) s)
    then quote2 else quote1 in
  String quote (repr_body quote s ++ String quote EmptyString)%string.

(** [str(err)], for the exceptions whose text the model carries: the
    argument of a [ValueError] or [AttributeError], the [repr] of the key
    of a [KeyError], the fixed text of a list index out of range, the
    error number and text of an [OSError], with the [repr] of the file
    name when it has one. *)
Definition exn_str (e : exn) : option string :=
  match e with
  | ValueError msg => Some msg
  | AttributeError msg => Some msg
  | KeyError key => Some (py_repr key)
  | IndexError => Some "list index out of range"%string
  | OSError errno strerror (Some filename) =>
      Some ("[Errno " ++ PyStr.of_int errno ++ "] " ++ strerror
            ++ ": " ++ py_repr filename)%string
  | OSError errno strerror None =>
      Some ("[Errno " ++ PyStr.of_int errno ++ "] " ++ strerror)%string
  | FileNotFoundError | EOFError | UnpicklingError => None
  end.

(** What the commands act on: the module's [_address_book] and the files. *)
Record world := mkWorld {
  _address_book : AddressBook;
  files : filesystem;
}.

(** [except Exception as err: return str(err)] around the body of a
    command.  (No body raises one of the three exceptions without text.) *)
Definition except_Exception (r : outcome string * world) : outcome string * world :=
  match r with
  | (Raise e, w) =>
      match exn_str e with
      | Some text => (Return text, w)
      | None => (Raise e, w)
      end
  | _ => r
  end.

(** Exceptions at the level of the commands: the two that the bodies
    cannot catch, and the others. *)
Inductive command_exn : Type :=
  | TypeError
  | UnboundLocalError
  | Uncaught (e : exn).

(** What a call of a command gives: a text, or an exception. *)
Inductive reply : Type :=
  | Says (text : string)
  | Fails (e : command_exn).

Definition as_reply (r : outcome string * world) : reply * world :=
  match r with
  | (Return text, w) => (Says text, w)
  | (Raise e, w) => (Fails (Uncaught e), w)
  end.

(** A command as the dispatch table holds it: called with [*args]. *)
Definition handler : Type := list string -> world -> reply * world.

(** Calling a function of no, one or two parameters with [*args]: a
    wrong number of arguments raises [TypeError] before the body runs. *)
Definition call0 (f : world -> outcome string * world) : handler :=
  fun args w => match args with
                | [] => as_reply (f w)
                | _ => (Fails TypeError, w)
                end.
Definition call1 (f : string -> world -> outcome string * world) : handler :=
  fun args w => match args with
                | [a] => as_reply (f a w)
                | _ => (Fails TypeError, w)
                end.
Definition call2 (f : string -> string -> world -> outcome string * world) : handler :=
  fun args w => match args with
                | [a; b] => as_reply (f a b w)
                | _ => (Fails TypeError, w)
                end.

(** The decorator [errors_commands]: [inner] calls the function
    and turns four classes of exception into their texts. *)
Definition errors_commands (func : handler) : handler :=
  fun args w =>
    match func args w with
    | (Fails TypeError, w') => (Says "Invalid number of arguments.", w')
    | (Fails (Uncaught (KeyError _)), w') => (Says "Contact not found.", w')
    | (Fails (Uncaught (ValueError _)), w') => (Says "Give me name and phone please.", w')
    | (Fails (Uncaught IndexError), w') =>
        (Says "Index out of range. Please provide valid input", w')
    | r => r
    end.

(** [hello_user] and [farewell] *)
Definition hello_user (w : world) : outcome string * world :=
  (Return "How can I help you?"%string, w).
Definition farewell (w : world) : outcome string * world :=
  (Return "Good bye!"%string, w).

(** What the operating system lets [write_to_file] do:
    - [Written]: the file is created or replaced;
    - [OpenRaises errno strerror]: [open(filename, "wb")] raises
      [OSError(errno, strerror, filename)], as on a directory or on a
      file that may not be written, and no file is touched;
    - [WriteRaises errno strerror kept]: the file was opened, and so
      emptied, and writing raises [OSError(errno, strerror)], as on a
      full disk, with the first [kept] bytes of the dump in the file. *)
Inductive os_write : Type :=
  | Written
  | OpenRaises (errno : Z) (strerror : string)
  | WriteRaises (errno : Z) (strerror : string) (kept : nat).

Section Commands.
Variable pickle_dumps : pydict Record_ -> list Byte.byte.
(** The answer of the operating system, by the files there are and the
    name of the file to write. *)
Variable os : filesystem -> string -> os_write.

(** [write_to_file] as the operating system lets it run. *)
Definition write_to_file_os (self : AddressBook) (filename : string) (fs : filesystem)
  : outcome unit * filesystem :=
  match os fs filename with
  | Written => (Return tt, write_to_file pickle_dumps self filename fs)
  | OpenRaises errno strerror => (Raise (OSError errno strerror (Some filename)), fs)
  | WriteRaises errno strerror kept =>
      (Raise (OSError errno strerror None),
       <[filename := take kept (pickle_dumps (data self))]> fs)
  end.

(** The body of [add_contact], inside its [try]. *)
Definition add_contact_try (name_arg phone : string) (w : world)
  : outcome string * world :=
  if negb (str_isalpha name_arg) || negb (str_isnumeric phone)
  then (Raise (ValueError EmptyString), w)
  else
    match Record_init name_arg None with
    | Raise e => (Raise e, w)
    | Return record =>
        match add_phone phone record with
        | (Raise e, _) => (Raise e, w)
        | (Return _, record) =>
            (Return ("Contact " ++ name_arg ++ " added.")%string,
             mkWorld (add_record record (_address_book w)) (files w))
        end
    end.

Definition add_contact : handler :=
  errors_commands (call2 (fun n p w => except_Exception (add_contact_try n p w))).

(** The body of [change_phone].  The record found is the object the
    dict holds, so the edit shows in the book under the same key, also
    when the write that follows raises. *)
Definition change_phone_try (name_arg phone : string) (w : world)
  : outcome string * world :=
  match find name_arg (_address_book w) with
  | Raise e => (Raise e, w)
  | Return None => (Raise (KeyError "Contact not found."), w)
  | Return (Some record) =>
      if negb (str_isnumeric phone)
      then (Raise (ValueError "Invalid phone number."), w)
      else
        match list_getitem (phones record) 0 with
        | Raise e => (Raise e, w)
        | Return first =>
            match edit_phone (value first) phone record with
            | (Raise e, _) => (Raise e, w)
            | (Return _, record) =>
                let book :=
                  mkAddressBook (dict_setitem name_arg record (data (_address_book w))) in
                match write_to_file_os book "my_address_book" (files w) with
                | (Raise e, fs) => (Raise e, mkWorld book fs)
                | (Return _, fs) =>
                    (Return ("Phone " ++ name_arg ++ " changed.")%string,
                     mkWorld book fs)
                end
            end
        end
  end.

Definition change_phone : handler :=
  errors_commands (call2 (fun n p w => except_Exception (change_phone_try n p w))).

(** The body of [show_phone]. *)
Definition show_phone_try (name_arg : string) (w : world) : outcome string * world :=
  match find name_arg (_address_book w) with
  | Raise e => (Raise e, w)
  | Return None => (Raise (KeyError "Contact not found."), w)
  | Return (Some record) =>
      match list_getitem (phones record) 0 with
      | Raise e => (Raise e, w)
      | Return first =>
          (Return ("The phone " ++ name_arg ++ " is " ++ value first)%string, w)
      end
  end.

Definition show_phone : handler :=
  errors_commands (call1 (fun n w => except_Exception (show_phone_try n w))).

(** One line of [show_all]: the name and [record.phones[0].value]. *)
Definition show_all_item (kv : string * Record_) : outcome string :=
  first ← list_getitem (phones (snd kv)) 0;
  Return (fst kv ++ ": " ++ value first)%string.

(** The body of [show_all]; a book is true when it has a record. *)
Definition show_all_try (w : world) : outcome string * world :=
  match data (_address_book w) with
  | [] => (Return "No contacts found."%string, w)
  | items =>
      match comprehension show_all_item items with
      | Return lines => (Return (str_join (String newline EmptyString) lines), w)
      | Raise e => (Raise e, w)
      end
  end.

Definition show_all : handler :=
  errors_commands (call0 (fun w => except_Exception (show_all_try w))).

(** The table [users_commands]. *)
Definition users_commands : pydict handler :=
  [ ("hello"%string, call0 hello_user);
    ("add"%string, add_contact);
    ("change"%string, change_phone);
    ("phone"%string, show_phone);
    ("show all"%string, show_all);
    ("good bye"%string, call0 farewell);
    ("close"%string, call0 farewell);
    ("exit"%string, call0 farewell) ].

(** [parser_command] on the words of a line. *)
Definition parser_command (user_command : list string) (w : world) : reply * world :=
  match list_getitem user_command 0 with
  | Raise e => (Fails (Uncaught e), w)
  | Return command =>
      if dict_contains command users_commands then
        match dict_getitem command users_commands with
        | Raise e => (Fails (Uncaught e), w)
        | Return func =>
            if (1 <? Z.of_nat (length user_command))%Z
            then func (drop 1 user_command) w
            else func [] w
        end
      else if (Z.of_nat (length user_command) =? 2)%Z then
        match list_getitem user_command 1 with
        | Raise e => (Fails (Uncaught e), w)
        | Return second =>
            let command_2 := (command ++ " " ++ second)%string in
            if dict_contains command_2 users_commands then
              match dict_getitem command_2 users_commands with
              | Raise e => (Fails (Uncaught e), w)
              | Return func => func [] w
              end
            else (Fails UnboundLocalError, w)
        end
      else (Says "Invalid command.", w)
  end.

End Commands.

(** A world with the sample contacts and no file. *)
Definition sample_world : world := mkWorld sample_contacts ∅.

(** An operating system that writes every file, one that lets no file
    be opened for writing, and one with a full disk. *)
Definition os_writes : filesystem -> string -> os_write := fun _ _ => Written.
Definition os_read_only : filesystem -> string -> os_write :=
  fun _ _ => OpenRaises 13 "Permission denied".
Definition os_disk_full : filesystem -> string -> os_write :=
  fun _ _ => WriteRaises 28 "No space left on device" 0.

(** The line of [show_all] for a contact that has a phone. *)
Definition contact_line (kv : string * Record_) : string :=
  (fst kv ++ ": " ++ match phones (snd kv) with
                     | p :: _ => value p
                     | [] => EmptyString
                     end)%string.

(** A command that keeps the dict of the book well formed. *)
Definition keeps_book_ok (func : handler) : Prop :=
  forall args w, book_ok (_address_book w) -> book_ok (_address_book (func args w).2).

(* ================================================================= *)
(** * Properties *)

(** ** Strings and phone numbers *)

Section StringFacts.
Import PyStr.

Lemma all_chars_true p s :
  all_chars p s = true <-> forall c, In_str c s -> p c = true.
Proof.
  induction s as [|a s IH]; simpl.
  - split; [intros _ c []|done].
  - rewrite andb_true_iff, IH. split.
    + intros [Ha Hs] c [<-|Hc]; auto.
    + intros H. split; [apply H; by left|intros c Hc; apply H; by right].
Qed.

Lemma all_chars_false p s :
  all_chars p s = false <-> exists c, In_str c s /\ p c = false.
Proof.
  induction s as [|a s IH]; simpl.
  - split; [done|intros (c & [] & _)].
  - rewrite andb_false_iff, IH. split.
    + intros [Ha|(c & Hc & Hp)]; [exists a|exists c]; auto.
    + intros (c & [<-|Hc] & Hp); [by left|right; eauto].
Qed.

Lemma char_isdecimal_isdigit c : char_isdecimal c = true -> char_isdigit c = true.
Proof. unfold char_isdigit. by intros ->. Qed.

(** The test of [validate_phone_format], read off its condition. *)
Lemma validate_phone_format_Return v :
  validate_phone_format v = Return tt
  <-> len v = 10%Z /\ all_chars char_isdigit v = true.
Proof.
  unfold validate_phone_format, isdigit.
  destruct v as [|a v]; [by split; [|intros [? _]]|].
  simpl truthy. rewrite !andb_true_l.
  destruct (Z.eqb_spec (len (String a v)) 10) as [Hl|Hl];
    destruct (all_chars char_isdigit (String a v)); simpl;
    split; try done; by intros [? ?].
Qed.

Lemma validate_phone_format_cases v :
  validate_phone_format v = Return tt
  \/ validate_phone_format v = Raise (ValueError "Phone number should be a 10-digit number").
Proof. unfold validate_phone_format. case_match; auto. Qed.

Lemma Phone_init_Return v p :
  Phone_init v = Return p <-> validate_phone_format v = Return tt /\ p = mkPhone v.
Proof.
  unfold Phone_init.
  destruct (validate_phone_format_cases v) as [->| ->]; simpl.
  - split; [by intros [= <-]|by intros [_ ->]].
  - split; [done|by intros [? _]].
Qed.

Lemma Phone_init_Raise v e :
  Phone_init v = Raise e
  <-> validate_phone_format v <> Return tt
      /\ e = ValueError "Phone number should be a 10-digit number".
Proof.
  unfold Phone_init.
  destruct (validate_phone_format_cases v) as [->| ->]; simpl.
  - split; [done|by intros [? _]].
  - split; [by intros [= <-]|by intros [_ ->]].
Qed.

End StringFacts.

(** C3, as amended.  [Phone] construction raises exactly when the text
    has not ten characters or has a character that [str.isdigit] refuses;
    the only exception is the [ValueError] of the class; ten decimal
    digits are accepted; an accepted text is stored as it is. *)
Theorem Phone_init_isdigit (s : string) :
  (raises (Phone_init s)
   <-> PyStr.len s <> 10%Z
       \/ exists c, PyStr.In_str c s /\ PyStr.char_isdigit c = false)
  /\ (forall e, Phone_init s = Raise e
                -> e = ValueError "Phone number should be a 10-digit number")
  /\ (PyStr.len s = 10%Z /\ PyStr.all_chars PyStr.char_isdecimal s = true
      -> Phone_init s = Return (mkPhone s))
  /\ (forall p, Phone_init s = Return p -> value p = s).
Proof.
  repeat split.
  - intros [e He]. apply Phone_init_Raise in He as [Hv _].
    rewrite validate_phone_format_Return in Hv.
    destruct (Z.eq_dec (PyStr.len s) 10%Z) as [Hl|Hl]; [right|by left].
    apply all_chars_false.
    destruct (PyStr.all_chars PyStr.char_isdigit s); [|done].
    by destruct Hv.
  - intros H. exists (ValueError "Phone number should be a 10-digit number").
    apply Phone_init_Raise. split; [|done].
    rewrite validate_phone_format_Return. intros [Hl Hd].
    destruct H as [H|H]; [done|].
    apply all_chars_false in H. congruence.
  - intros e He. by apply Phone_init_Raise in He as [_ ->].
  - intros [Hl Hd]. apply Phone_init_Return. split; [|done].
    apply validate_phone_format_Return. split; [done|].
    apply all_chars_true. intros c Hc. apply char_isdecimal_isdigit.
    by eapply all_chars_true in Hd.
  - intros p Hp. by apply Phone_init_Return in Hp as [_ ->].
Qed.

(** C3 as written fails: ten superscript twos hold no decimal digit, and
    a [Phone] is built from them. *)
Lemma Phone_init_superscripts :
  PyStr.len ten_superscripts = 10%Z
  /\ (forall c, PyStr.In_str c ten_superscripts -> PyStr.char_isdecimal c = false)
  /\ Phone_init ten_superscripts = Return (mkPhone ten_superscripts).
Proof.
  split; [reflexivity|]. split; [|reflexivity].
  intros c Hc. simpl in Hc.
  repeat (destruct Hc as [<-|Hc]; [reflexivity|]). destruct Hc.
Qed.

(** ** [edit_phone] *)

Section EditPhone.
Implicit Types (ps : list Phone) (old new : string).

Lemma edit_phone_loop_None ps old new :
  edit_phone_loop ps old new = None <-> Forall (fun p => value p <> old) ps.
Proof.
  induction ps as [|p ps IH]; simpl.
  - split; [constructor|done].
  - destruct (String.eqb_spec (phone_value p) old) as [Heq|Hne].
    + split; [done|]. intros H. by inversion H.
    + destruct (edit_phone_loop ps old new) eqn:E; simpl.
      * split; [done|]. intros H. inversion H; subst.
        by apply IH in H3.
      * split; [|done]. intros _. constructor; [done|by apply IH].
Qed.

Lemma edit_phone_loop_Some ps old new ps' :
  edit_phone_loop ps old new = Some ps'
  <-> exists i, first_match old ps i /\ ps' = <[i := mkPhone new]> ps.
Proof.
  revert ps'. induction ps as [|p ps IH]; intros ps'; simpl.
  - split; [done|]. by intros (i & [(q & Hq & _) _] & _).
  - destruct (String.eqb_spec (phone_value p) old) as [Heq|Hne].
    + split.
      * intros [= <-]. exists 0%nat. split; [|done]. split; [by exists p|].
        intros j q Hj. lia.
      * intros (i & [(q & Hq & Hv) Hfirst] & ->).
        destruct i as [|i]; [done|].
        exfalso. apply (Hfirst 0%nat p); [lia|done|done].
    + destruct (edit_phone_loop ps old new) as [r|] eqn:E; simpl.
      * destruct (proj1 (IH r) eq_refl) as (i & [(q & Hq & Hv) Hfirst] & ->).
        split.
        -- intros [= <-]. exists (S i). split; [|done]. split; [by exists q|].
           intros [|j] q' Hj Hq'; simpl in Hq'; [by injection Hq' as <-|].
           apply (Hfirst j); [lia|done].
        -- intros (i' & [(q' & Hq' & Hv') Hfirst'] & ->).
           destruct i' as [|i']; [simpl in Hq'; by injection Hq' as <-|].
           simpl. do 2 f_equal.
           destruct (Nat.lt_trichotomy i i') as [Hlt|[->|Hgt]]; [|done|].
           ++ exfalso. apply (Hfirst' (S i) q); [lia|done|done].
           ++ exfalso. apply (Hfirst i' q'); [lia|done|done].
      * split; [done|]. intros (i & [(q & Hq & Hv) Hfirst] & ->).
        destruct i as [|i]; [simpl in Hq; by injection Hq as <-|].
        assert (None = Some (<[i:=mkPhone new]> ps)) as HH; [|done].
        apply IH. exists i. split; [|done]. split; [by exists q|].
        intros j q' Hj Hq'. apply (Hfirst (S j)); [lia|done].
Qed.

Lemma first_match_exists ps old :
  Exists (fun p => value p = old) ps -> exists i, first_match old ps i.
Proof.
  intros H. destruct (edit_phone_loop ps old old) as [r|] eqn:E.
  - apply edit_phone_loop_Some in E as (i & Hi & _). by exists i.
  - apply edit_phone_loop_None in E.
    apply Exists_exists in H as (p & Hp & Hv).
    rewrite Forall_forall in E. by apply E in Hp.
Qed.

Lemma first_match_unique ps old i j :
  first_match old ps i -> first_match old ps j -> i = j.
Proof.
  intros [(p & Hp & Hvp) Hi] [(q & Hq & Hvq) Hj].
  destruct (Nat.lt_trichotomy i j) as [Hlt|[->|Hgt]]; [|done|].
  - exfalso. by apply (Hj i p).
  - exfalso. by apply (Hi j q).
Qed.

End EditPhone.

(** C6.  When no phone of the record has the value [old], [edit_phone]
    raises the error with the message "Phone number to be edited was not
    found" (a [ValueError] in the code) and the record, its phone list
    included, is as before.  When some phone has it, the call succeeds and
    the phone list differs from the old one at exactly one place, the
    first match, also when [old] occurs again later. *)
Theorem edit_phone_not_found_or_first (self : Record_) (old new : string) :
  (Forall (fun p => value p <> old) (phones self)
   -> edit_phone old new self
      = (Raise (ValueError "Phone number to be edited was not found"), self))
  /\ (Exists (fun p => value p = old) (phones self)
      -> exists i, first_match old (phones self) i
           /\ edit_phone old new self
              = (Return tt, with_phones (<[i := mkPhone new]> (phones self)) self)).
Proof.
  unfold edit_phone. split.
  - intros H. apply (edit_phone_loop_None _ _ new) in H. by rewrite H.
  - intros H. destruct (first_match_exists _ _ H) as (i & Hi).
    exists i. split; [done|].
    assert (edit_phone_loop (phones self) old new
            = Some (<[i:=mkPhone new]> (phones self))) as ->; [|done].
    apply edit_phone_loop_Some. by exists i.
Qed.

Lemma edit_phone_not_found_or_first_witness :
  edit_phone "0000000000" "5555555555" sample_record
  = (Raise (ValueError "Phone number to be edited was not found"), sample_record)
  /\ exists i, first_match "1234567890" (phones sample_record) i
       /\ edit_phone "1234567890" "5555555555" sample_record
          = (Return tt,
             with_phones (<[i := mkPhone "5555555555"]> (phones sample_record))
               sample_record).
Proof.
  split.
  - apply (proj1 (edit_phone_not_found_or_first sample_record
                    "0000000000" "5555555555")).
    repeat constructor; discriminate.
  - apply (proj2 (edit_phone_not_found_or_first sample_record
                    "1234567890" "5555555555")).
    constructor. reflexivity.
Defined.

(** C10.  A successful [edit_phone] assigns to the matched phone where it
    stands: the list keeps its length, the phone at the place of the
    first match now holds [new], every other place holds what it held, and
    the name and the birthday of the record are untouched. *)
Theorem edit_phone_in_place (self : Record_) (old new : string) :
  Exists (fun p => value p = old) (phones self) ->
  exists i self',
    edit_phone old new self = (Return tt, self')
    /\ first_match old (phones self) i
    /\ length (phones self') = length (phones self)
    /\ phones self' !! i = Some (mkPhone new)
    /\ (forall j, j <> i -> phones self' !! j = phones self !! j)
    /\ name self' = name self
    /\ birthday self' = birthday self.
Proof.
  intros H. destruct (first_match_exists _ _ H) as (i & Hi).
  exists i, (with_phones (<[i := mkPhone new]> (phones self)) self).
  split.
  { unfold edit_phone.
    assert (edit_phone_loop (phones self) old new
            = Some (<[i:=mkPhone new]> (phones self))) as ->; [|done].
    apply edit_phone_loop_Some. by exists i. }
  split; [done|]. simpl.
  destruct Hi as [(p & Hp & _) _].
  split; [apply length_insert|].
  split; [apply list_lookup_insert_eq; by eapply lookup_lt_Some|].
  split; [|done].
  intros j Hj. by apply list_lookup_insert_ne.
Qed.

Lemma edit_phone_in_place_witness :
  exists i self',
    edit_phone "1234567890" "5555555555" sample_record = (Return tt, self')
    /\ first_match "1234567890" (phones sample_record) i
    /\ length (phones self') = length (phones sample_record)
    /\ phones self' !! i = Some (mkPhone "5555555555")
    /\ (forall j, j <> i -> phones self' !! j = phones sample_record !! j)
    /\ name self' = name sample_record
    /\ birthday self' = birthday sample_record.
Proof.
  apply (edit_phone_in_place sample_record "1234567890" "5555555555").
  constructor. reflexivity.
Defined.

(** ** [find] and [find_phone] *)

Lemma find_Return (name_arg : string) (self : AddressBook) :
  find name_arg self
  = Return (snd <$> List.find (fun kv => String.eqb name_arg (fst kv)) (data self)).
Proof.
  unfold find. destruct self as [d]. simpl.
  induction d as [|[k v] d IH]; simpl; [done|].
  destruct (String.eqb name_arg k); simpl; [done|].
  destruct (dict_contains name_arg d); simpl in *; done.
Qed.

Lemma find_phone_loop_valid (ps : list Phone) (number : string) :
  validate_phone_format number = Return tt ->
  find_phone_loop ps number
  = Return (List.find (fun p => String.eqb (value p) number) ps).
Proof.
  intros Hv. induction ps as [|p ps IH]; simpl; [done|].
  unfold Phone_init. rewrite Hv. simpl. unfold Phone_eq. simpl.
  by destruct (String.eqb (phone_value p) number).
Qed.

Lemma find_phone_loop_invalid (ps : list Phone) (number : string) :
  ps <> [] -> validate_phone_format number <> Return tt ->
  find_phone_loop ps number
  = Raise (ValueError "Phone number should be a 10-digit number").
Proof.
  intros Hps Hv. destruct ps as [|p ps]; [done|]. simpl.
  unfold Phone_init.
  by destruct (validate_phone_format_cases number) as [H|H]; rewrite H in *.
Qed.

(** C7, as amended.  [find] never raises: it returns the record stored
    under exactly that name, or [None].  [find_phone] returns the first
    phone with that value, or [None], when the record has no phone or
    when the number is one a [Phone] can be built from; on a record with
    a phone and any other number it raises the [ValueError] of [Phone]. *)
Theorem find_total_find_phone_validates
    (book : AddressBook) (name_arg : string) (self : Record_) (number : string) :
  find name_arg book
  = Return (snd <$> List.find (fun kv => String.eqb name_arg (fst kv)) (data book))
  /\ (phones self = [] \/ validate_phone_format number = Return tt
      -> find_phone number self
         = Return (List.find (fun p => String.eqb (value p) number) (phones self)))
  /\ (phones self <> [] /\ validate_phone_format number <> Return tt
      -> find_phone number self
         = Raise (ValueError "Phone number should be a 10-digit number")).
Proof.
  split; [apply find_Return|]. unfold find_phone. split.
  - intros [->|Hv]; [done|]. by apply find_phone_loop_valid.
  - intros [Hps Hv]. by apply find_phone_loop_invalid.
Qed.

Lemma find_total_find_phone_validates_witness :
  find_phone "5550001111" sample_record = Return (Some (mkPhone "5550001111"))
  /\ find_phone "12345" sample_record
     = Raise (ValueError "Phone number should be a 10-digit number").
Proof.
  split.
  - apply (proj1 (proj2 (find_total_find_phone_validates
                           AddressBook_init "Ann" sample_record "5550001111"))).
    right. reflexivity.
  - apply (proj2 (proj2 (find_total_find_phone_validates
                           AddressBook_init "Ann" sample_record "12345"))).
    split; discriminate.
Defined.

(** C7 as written fails: "12345" is the value of no phone of the record,
    and looking it up raises. *)
Lemma find_phone_raises_when_absent :
  Forall (fun p => value p <> "12345"%string) (phones sample_record)
  /\ find_phone "12345" sample_record
     = Raise (ValueError "Phone number should be a 10-digit number").
Proof. split; [repeat constructor; discriminate|reflexivity]. Qed.

(** ** The invariant of the phones of a record *)

Section PhoneInvariant.

Lemma Phone_init_phone_ok v p : Phone_init v = Return p -> phone_ok p.
Proof.
  intros H. apply Phone_init_Return in H as [Hv ->].
  by apply validate_phone_format_Return in Hv.
Qed.

Lemma add_phone_phone_ok n self :
  Forall phone_ok (phones self) -> Forall phone_ok (phones (add_phone n self).2).
Proof.
  intros H. unfold add_phone. destruct (Phone_init n) as [p|e] eqn:E; [|done].
  simpl. apply Forall_app. split; [done|].
  constructor; [by eapply Phone_init_phone_ok|constructor].
Qed.

Lemma list_remove_phone_ok x ps ps' :
  list_remove x ps = Return ps' -> Forall phone_ok ps -> Forall phone_ok ps'.
Proof.
  revert ps'. induction ps as [|p ps IH]; intros ps'; simpl; [done|].
  destruct (Phone_eq p x).
  - intros [= <-] H. by inversion H.
  - destruct (list_remove x ps) as [r|e]; simpl; [|done].
    intros [= <-] H. inversion H; subst. constructor; [done|by apply IH].
Qed.

Lemma remove_phone_phone_ok n self :
  Forall phone_ok (phones self) -> Forall phone_ok (phones (remove_phone n self).2).
Proof.
  intros H. unfold remove_phone.
  destruct (List.find _ (phones self)) as [p|]; [|done].
  destruct (list_remove p (phones self)) as [ps|e] eqn:E; [|done].
  simpl. by eapply list_remove_phone_ok.
Qed.

Lemma edit_phone_phone_ok old new self :
  phone_ok (mkPhone new) ->
  Forall phone_ok (phones self) -> Forall phone_ok (phones (edit_phone old new self).2).
Proof.
  intros Hnew H. unfold edit_phone.
  destruct (edit_phone_loop (phones self) old new) as [ps|] eqn:E; [|done].
  apply edit_phone_loop_Some in E as (i & _ & ->). simpl.
  by apply Forall_insert.
Qed.

Lemma run_ops_phone_ok ops self :
  Forall phone_ok (phones self) -> Forall edit_new_ok ops ->
  Forall phone_ok (phones (run_ops ops self)).
Proof.
  unfold run_ops. revert self.
  induction ops as [|op ops IH]; intros self Hself Hops; simpl; [done|].
  inversion Hops as [|? ? Hop Hops']; subst. apply IH; [|done].
  destruct op; simpl.
  - by apply add_phone_phone_ok.
  - by apply remove_phone_phone_ok.
  - by apply edit_phone_phone_ok.
Qed.

End PhoneInvariant.

(** ** [iterate] *)

(** The operations of the book keep the keys of its dict distinct. *)
Lemma dict_setitem_keys (k : string) (v : Record_) (d : pydict Record_) :
  dict_keys (dict_setitem k v d)
  = if dict_contains k d then dict_keys d else dict_keys d ++ [k].
Proof.
  induction d as [|[k' v'] d IH]; simpl; [done|].
  destruct (String.eqb k k'); simpl; [done|].
  rewrite IH. by destruct (dict_contains k d).
Qed.

Lemma dict_contains_keys (k : string) (d : pydict Record_) :
  dict_contains k d = true <-> k ∈ dict_keys d.
Proof.
  induction d as [|[k' v'] d IH]; simpl.
  - split; [done|]. by intros ?%elem_of_nil.
  - rewrite orb_true_iff, IH, elem_of_cons. simpl.
    by destruct (String.eqb_spec k k'); split; intros [?|?]; auto.
Qed.

Lemma add_record_keys_unique (record : Record_) (self : AddressBook) :
  NoDup (dict_keys (data self)) -> NoDup (dict_keys (data (add_record record self))).
Proof.
  intros H. unfold add_record. simpl. rewrite dict_setitem_keys.
  destruct (dict_contains _ (data self)) eqn:E; [done|].
  apply NoDup_app. split; [done|]. split; [|apply NoDup_singleton].
  intros k Hk ->%list_elem_of_singleton.
  apply dict_contains_keys in Hk. congruence.
Qed.

Section Iterate.
Variable self : AddressBook.
Hypothesis keys_unique : NoDup (dict_keys (data self)).

Local Abbreviation d := (data self) (only parsing).
Local Abbreviation elem := (page_elem self (dict_keys (data self))) (only parsing).

Lemma dict_getitem_lookup (d' : pydict Record_) i k v :
  NoDup (dict_keys d') -> d' !! i = Some (k, v) -> dict_getitem k d' = Return v.
Proof.
  revert i. induction d' as [|[k' v'] d' IH]; intros i Hnd Hi; [done|].
  simpl in Hnd. apply NoDup_cons in Hnd as [Hk' Hnd].
  destruct i as [|i]; simpl in *.
  - injection Hi as -> ->. by rewrite String.eqb_refl.
  - destruct (String.eqb_spec k k') as [->|Hne]; [|by eapply IH].
    exfalso. apply Hk'. apply list_elem_of_fmap. exists (k', v).
    split; [done|]. by eapply list_elem_of_lookup_2.
Qed.

Lemma list_getitem_nat {A} (l : list A) (m : nat) x :
  l !! m = Some x -> list_getitem l (Z.of_nat m) = Return x.
Proof.
  intros H. pose proof (lookup_lt_Some _ _ _ H) as Hlt.
  assert ((Z.of_nat m <? 0)%Z = false) as E1 by lia.
  assert ((Z.of_nat (length l) <=? Z.of_nat m)%Z = false) as E2 by lia.
  unfold list_getitem. cbv zeta. rewrite E1. rewrite E1, E2. simpl.
  by rewrite Nat2Z.id, H.
Qed.

Lemma elem_lookup (m : nat) v :
  dict_values d !! m = Some v -> elem (Z.of_nat m) = Return v.
Proof using keys_unique.
  unfold page_elem, dict_values, dict_keys. intros Hv.
  rewrite list_lookup_fmap in Hv.
  destruct (d !! m) as [[k v']|] eqn:Hd; simplify_eq/=.
  rewrite (list_getitem_nat _ _ k) by by rewrite list_lookup_fmap, Hd.
  simpl. by eapply dict_getitem_lookup.
Qed.

(** The list comprehension over [range(r, r + n)] inside the book. *)
Lemma comprehension_range (n r : nat) :
  (r + n <= length d)%nat ->
  comprehension elem (seqZ (Z.of_nat r) (Z.of_nat n))
  = Return (take n (drop r (dict_values d))).
Proof using keys_unique.
  revert r. induction n as [|n IH]; intros r Hr; [done|].
  rewrite seqZ_cons by lia. simpl.
  destruct (lookup_lt_is_Some_2 (dict_values d) r) as [v Hv].
  { unfold dict_values. rewrite length_fmap. lia. }
  rewrite (elem_lookup _ _ Hv). simpl.
  replace (Z.succ (Z.of_nat r)) with (Z.of_nat (S r)) by lia.
  replace (Z.pred (Z.of_nat (S n))) with (Z.of_nat n) by lia.
  rewrite IH by lia. simpl.
  by rewrite (drop_S _ _ _ Hv).
Qed.

(** One page: what the loop body yields from [records = r]. *)
Lemma iterate_next_page (n : Z) (r : nat) :
  (0 < n)%Z -> (r < length d)%nat ->
  iterate_next self n (mkFrame (dict_keys d) (Z.of_nat r) (Z.of_nat (length d)))
  = Return (Some (take (Z.to_nat n) (drop r (dict_values d)),
                  mkFrame (dict_keys d) (Z.of_nat (r + Z.to_nat n))
                          (Z.of_nat (length d)))).
Proof using keys_unique.
  intros Hn Hr. unfold iterate_next. simpl.
  destruct (Z.ltb_spec (Z.of_nat r) (Z.of_nat (length d))) as [_|?]; [|lia].
  unfold py_range.
  set (b := Z.min (Z.of_nat r + n) (Z.of_nat (length d))).
  replace (b - Z.of_nat r)%Z with (Z.of_nat (Z.to_nat (b - Z.of_nat r))) by lia.
  rewrite comprehension_range by lia. simpl.
  replace (Z.of_nat r + n)%Z with (Z.of_nat (r + Z.to_nat n)) by lia.
  do 3 f_equal.
  assert (length (drop r (dict_values d)) = (length d - r)%nat) as Hlen.
  { rewrite length_drop. unfold dict_values. by rewrite length_fmap. }
  destruct (Z.le_ge_cases (Z.of_nat r + n) (Z.of_nat (length d))).
  - f_equal. lia.
  - rewrite !take_ge by lia. done.
Qed.

Lemma iterate_run_chunks (n : Z) (fuel r : nat) :
  (0 < n)%Z -> (length d - r < fuel)%nat ->
  iterate_run fuel self n
    (mkFrame (dict_keys d) (Z.of_nat r) (Z.of_nat (length d)))
  = Some (Return (chunks fuel (Z.to_nat n) (drop r (dict_values d)))).
Proof using keys_unique.
  intros Hn. revert r. induction fuel as [|fuel IH]; intros r Hfuel; [lia|].
  destruct (decide (r < length d)%nat) as [Hr|Hr].
  - cbn [iterate_run]. rewrite iterate_next_page by done.
    rewrite IH by lia.
    destruct (lookup_lt_is_Some_2 (dict_values d) r) as [v Hv].
    { unfold dict_values. by rewrite length_fmap. }
    rewrite (drop_S _ _ _ Hv). cbn [chunks]. rewrite <- (drop_S _ _ _ Hv).
    by rewrite drop_drop.
  - cbn [iterate_run]. unfold iterate_next. simpl.
    destruct (Z.ltb_spec (Z.of_nat r) (Z.of_nat (length d))) as [?|_]; [lia|].
    rewrite drop_ge; [done|]. unfold dict_values. rewrite length_fmap. lia.
Qed.

End Iterate.

Section Chunks.
Context {A : Type}.
Implicit Types (l : list A) (n fuel : nat).

Lemma chunks_concat fuel n l :
  (0 < n)%nat -> (length l < fuel)%nat -> concat (chunks fuel n l) = l.
Proof.
  intros Hn. revert l. induction fuel as [|fuel IH]; intros l Hl; [lia|].
  destruct l as [|x l]; [done|]. cbn [chunks concat].
  rewrite IH; [apply take_drop|]. rewrite length_drop. simpl in *. lia.
Qed.

Lemma chunks_fuel fuel fuel' n l :
  (0 < n)%nat -> (length l < fuel)%nat -> (length l < fuel')%nat ->
  chunks fuel n l = chunks fuel' n l.
Proof.
  intros Hn. revert fuel' l.
  induction fuel as [|fuel IH]; intros fuel' l Hl Hl'; [lia|].
  destruct fuel' as [|fuel']; [lia|].
  destruct l as [|x l]; [done|]. cbn [chunks]. f_equal.
  apply IH; rewrite length_drop; simpl in *; lia.
Qed.

Lemma chunks_sizes fuel n l :
  (0 < n)%nat -> (length l < fuel)%nat ->
  (forall i page, chunks fuel n l !! i = Some page ->
                  (S i < length (chunks fuel n l))%nat -> length page = n)
  /\ (forall page, last (chunks fuel n l) = Some page ->
                   (1 <= length page <= n)%nat).
Proof.
  intros Hn. revert l. induction fuel as [|fuel IH]; intros l Hl; [lia|].
  destruct l as [|x l]; [done|]. cbn [chunks].
  assert (length (drop n (x :: l)) < fuel)%nat as Hd.
  { rewrite length_drop. simpl in *. lia. }
  destruct (IH _ Hd) as [IH1 IH2]. split.
  - intros [|i] page Hp Hi; simpl in *.
    + injection Hp as <-. rewrite length_take.
      destruct (chunks fuel n (drop n (x :: l))) as [|c cs] eqn:E; [simpl in Hi; lia|].
      destruct fuel as [|fuel]; [done|].
      destruct (drop n (x :: l)) as [|y l'] eqn:E'; [done|].
      assert (length (drop n (x :: l)) = S (length l')) as Hlen by by rewrite E'.
      rewrite length_drop in Hlen. simpl in *. lia.
    + apply (IH1 i); [done|lia].
  - intros page Hp.
    destruct (chunks fuel n (drop n (x :: l))) as [|c cs] eqn:E.
    + simpl in Hp. injection Hp as <-. rewrite length_take. simpl. lia.
    + apply IH2. by rewrite last_cons_cons in Hp.
Qed.

End Chunks.

(** C5.  For a book (a dict, so with distinct keys) and a positive page
    size, the generator stops after finitely many pages: with enough
    turns allowed, whatever their number, it has yielded the same list of
    pages.  The pages laid end to end are the records of the book in
    insertion order, each once; every page but the last has exactly
    [n] records and the last has between one and [n]; an empty book gives
    no page; five records by pages of two give pages of 2, 2 and 1. *)
Theorem iterate_partitions (self : AddressBook) (n : Z) :
  NoDup (dict_keys (data self)) -> (0 < n)%Z ->
  exists pages,
    (exists fuel0, forall fuel, (fuel0 <= fuel)%nat ->
                                iterate fuel self n = Some (Return pages))
    /\ concat pages = dict_values (data self)
    /\ (forall i page, pages !! i = Some page -> (S i < length pages)%nat ->
                       Z.of_nat (length page) = n)
    /\ (forall page, last pages = Some page ->
                     (1 <= Z.of_nat (length page) <= n)%Z)
    /\ (data self = [] -> pages = [])
    /\ (length (data self) = 5%nat -> n = 2%Z ->
        length <$> pages = [2; 2; 1]%nat).
Proof.
  intros Hnd Hn.
  set (vals := dict_values (data self)).
  assert (length vals = length (data self)) as Hlen.
  { unfold vals, dict_values. by rewrite length_fmap. }
  exists (chunks (S (length vals)) (Z.to_nat n) vals).
  split.
  { exists (S (length vals)). intros fuel Hfuel. unfold iterate, iterate_enter.
    unfold dict_keys at 2. rewrite length_fmap.
    change 0%Z with (Z.of_nat 0).
    rewrite iterate_run_chunks by (done || lia). rewrite drop_0.
    do 2 f_equal. apply chunks_fuel; lia. }
  split; [apply chunks_concat; lia|].
  destruct (chunks_sizes (S (length vals)) (Z.to_nat n) vals) as [H1 H2];
    [lia|lia|].
  split; [intros i page Hp Hi; rewrite (H1 i page) by done; lia|].
  split; [intros page Hp; apply H2 in Hp; lia|].
  split.
  - intros Hd. unfold vals. by rewrite Hd.
  - intros H5 ->. rewrite H5 in Hlen.
    destruct vals as [|a [|b [|c [|e [|f [|g vals]]]]]]; try done.
Qed.

Lemma iterate_partitions_witness :
  exists pages,
    (exists fuel0, forall fuel, (fuel0 <= fuel)%nat ->
                                iterate fuel sample_book 2 = Some (Return pages))
    /\ concat pages = dict_values (data sample_book)
    /\ (forall i page, pages !! i = Some page -> (S i < length pages)%nat ->
                       Z.of_nat (length page) = 2%Z)
    /\ (forall page, last pages = Some page ->
                     (1 <= Z.of_nat (length page) <= 2)%Z)
    /\ (data sample_book = [] -> pages = [])
    /\ (length (data sample_book) = 5%nat -> 2%Z = 2%Z ->
        length <$> pages = [2; 2; 1]%nat).
Proof.
  apply (iterate_partitions sample_book 2).
  - apply (bool_decide_unpack _). vm_compute. exact I.
  - lia.
Defined.

(** With a page size of zero the loop never leaves a book that has a
    record: no number of turns ends the generator. *)
Lemma iterate_zero_diverges (self : AddressBook) (fuel : nat) :
  data self <> [] -> iterate fuel self 0 = None.
Proof.
  intros Hd. unfold iterate, iterate_enter.
  assert (0 < Z.of_nat (length (dict_keys (data self))))%Z as Hlen.
  { unfold dict_keys. rewrite length_fmap. destruct (data self); [done|simpl; lia]. }
  induction fuel as [|fuel IH]; [done|].
  cbn [iterate_run]. unfold iterate_next. cbn [records all_records keys].
  destruct (Z.ltb_spec 0 (Z.of_nat (length (dict_keys (data self))))) as [_|?]; [|lia].
  rewrite Z.add_0_l, Z.min_l by lia. unfold py_range.
  rewrite seqZ_nil by lia. simpl. by rewrite IH.
Qed.

(** ** Saving and loading *)

Section PersistenceFacts.
Variable pickle_dumps : pydict Record_ -> list Byte.byte.
Variable pickle_loads : list Byte.byte -> outcome (pydict Record_).

Lemma read_contacts_from_file_present (fs : filesystem) filename bytes :
  fs !! filename = Some bytes ->
  read_contacts_from_file pickle_loads fs filename
  = match pickle_loads bytes with
    | Return d => Return (mkAddressBook d)
    | Raise FileNotFoundError | Raise EOFError => Return AddressBook_init
    | Raise e => Raise e
    end.
Proof.
  intros H. unfold read_contacts_from_file, open_rb. rewrite H. simpl.
  destruct (pickle_loads bytes) as [d|[]]; reflexivity.
Qed.


(** An exception of [pickle.load] other than [EOFError] is not caught. *)
Lemma read_contacts_from_file_unpickling_error (fs : filesystem) filename bytes :
  fs !! filename = Some bytes ->
  pickle_loads bytes = Raise UnpicklingError ->
  read_contacts_from_file pickle_loads fs filename = Raise UnpicklingError.
Proof.
  intros H E. by rewrite (read_contacts_from_file_present _ _ _ H), E.
Qed.


End PersistenceFacts.

(** C4.  Whenever [pickle] gives back the object it dumped, loading the
    file that [write_to_file] wrote gives a book with the same names in
    the same order, and under each name a record with the same phones in
    the same order and the same birthday; any earlier content of the
    file is gone. *)
Theorem read_after_write
    (pickle_dumps : pydict Record_ -> list Byte.byte)
    (pickle_loads : list Byte.byte -> outcome (pydict Record_))
    (book : AddressBook) (filename : string) (fs : filesystem) :
  pickle_loads (pickle_dumps (data book)) = Return (data book) ->
  exists book',
    read_contacts_from_file pickle_loads
      (write_to_file pickle_dumps book filename fs) filename = Return book'
    /\ data book' = data book
    /\ dict_keys (data book') = dict_keys (data book)
    /\ forall name_arg r,
         find name_arg book = Return (Some r) ->
         exists r', find name_arg book' = Return (Some r')
                    /\ name r' = name r
                    /\ phones r' = phones r
                    /\ birthday r' = birthday r.
Proof.
  intros Hrt. exists book. split; [|split; [done|split; [done|by eauto]]].
  rewrite (read_contacts_from_file_present _ _ _ (pickle_dumps (data book))).
  - rewrite Hrt. by destruct book.
  - unfold write_to_file. apply lookup_insert_eq.
Qed.

Lemma read_after_write_witness :
  exists book',
    read_contacts_from_file RefCodec.loads
      (write_to_file RefCodec.dumps sample_contacts "my_address_book" ∅)
      "my_address_book" = Return book'
    /\ data book' = data sample_contacts
    /\ dict_keys (data book') = dict_keys (data sample_contacts)
    /\ forall name_arg r,
         find name_arg sample_contacts = Return (Some r) ->
         exists r', find name_arg book' = Return (Some r')
                    /\ name r' = name r
                    /\ phones r' = phones r
                    /\ birthday r' = birthday r.
Proof.
  apply (read_after_write RefCodec.dumps RefCodec.loads sample_contacts).
  vm_compute. reflexivity.
Defined.




(** ** Dates *)

Section DatetimeFacts.
Import Datetime.
Local Open Scope Z_scope.

Lemma date_fields_ok_bounds y m d :
  date_fields_ok y m d = true ->
  1 <= y <= 9999 /\ 1 <= m <= 12 /\ 1 <= d <= _days_in_month y m.
Proof. unfold date_fields_ok, MINYEAR, MAXYEAR. lia. Qed.

Lemma datetime_init_ok y m d :
  date_fields_ok y m d = true -> datetime_init y m d = Return (mkDatetime y m d 0 0 0 0).
Proof.
  unfold date_fields_ok, datetime_init. intros H.
  repeat (apply andb_prop in H as [H ?]).
  by repeat match goal with E : _ = true |- _ => rewrite E; clear E end.
Qed.

Lemma month_cases m :
  1 <= m <= 12 ->
  m = 1 \/ m = 2 \/ m = 3 \/ m = 4 \/ m = 5 \/ m = 6
  \/ m = 7 \/ m = 8 \/ m = 9 \/ m = 10 \/ m = 11 \/ m = 12.
Proof. lia. Qed.

Lemma _days_in_month_le y m : 1 <= m <= 12 -> 28 <= _days_in_month y m <= 31.
Proof.
  intros H. unfold _days_in_month.
  destruct (month_cases m H) as [->|[->|[->|[->|[->|[->|[->|[->|[->|[->|[->| ->]]]]]]]]]]];
    destruct (_is_leap y); simpl; lia.
Qed.

(** The months of a year follow one another without gap. *)
Lemma _days_before_month_lt y m m' :
  1 <= m -> m < m' -> m' <= 12 ->
  _days_before_month y m + _days_in_month y m <= _days_before_month y m'.
Proof.
  intros H1 H2 H3. unfold _days_before_month, _days_in_month.
  destruct (month_cases m ltac:(lia))
    as [->|[->|[->|[->|[->|[->|[->|[->|[->|[->|[->| ->]]]]]]]]]]];
    destruct (month_cases m' ltac:(lia))
      as [->|[->|[->|[->|[->|[->|[->|[->|[->|[->|[->| ->]]]]]]]]]]];
    try lia; destruct (_is_leap y); simpl; lia.
Qed.

Lemma _days_before_month_end y m :
  1 <= m <= 12 ->
  0 <= _days_before_month y m
  /\ _days_before_month y m + _days_in_month y m
     <= 365 + (if _is_leap y then 1 else 0).
Proof.
  intros H. unfold _days_before_month, _days_in_month.
  destruct (month_cases m H) as [->|[->|[->|[->|[->|[->|[->|[->|[->|[->|[->| ->]]]]]]]]]]];
    destruct (_is_leap y); simpl; lia.
Qed.

Lemma _days_before_year_succ y :
  _days_before_year (y + 1) = _days_before_year y + 365 + (if _is_leap y then 1 else 0).
Proof.
  unfold _days_before_year, _is_leap. cbv zeta.
  replace (y + 1 - 1) with y by lia.
  destruct (Z.eqb_spec (y mod 4) 0), (Z.eqb_spec (y mod 100) 0),
    (Z.eqb_spec (y mod 400) 0); simpl; Z.div_mod_to_equations; lia.
Qed.

(** Ordinals grow with the date inside a year... *)
Lemma _ymd2ord_same_year y m d m' d' :
  date_fields_ok y m d = true -> date_fields_ok y m' d' = true ->
  (m <? m') || ((m =? m') && (d <? d')) = false ->
  _ymd2ord y m' d' <= _ymd2ord y m d.
Proof.
  intros H H' Hlt. apply date_fields_ok_bounds in H as (_ & Hm & Hd).
  apply date_fields_ok_bounds in H' as (_ & Hm' & Hd').
  unfold _ymd2ord.
  destruct (Z.ltb_spec m m') as [?|?]; [done|]. simpl in Hlt.
  destruct (Z.eqb_spec m m') as [->|?]; simpl in Hlt; [lia|].
  pose proof (_days_before_month_lt y m' m). lia.
Qed.

(** ... and from any day of a year to any day of the next. *)
Lemma _ymd2ord_next_year y m d m' d' :
  date_fields_ok (y + 1) m d = true -> date_fields_ok y m' d' = true ->
  _ymd2ord y m' d' < _ymd2ord (y + 1) m d.
Proof.
  intros H H'. apply date_fields_ok_bounds in H as (_ & Hm & Hd).
  apply date_fields_ok_bounds in H' as (_ & Hm' & Hd').
  unfold _ymd2ord. rewrite _days_before_year_succ.
  pose proof (_days_before_month_end y m' Hm').
  pose proof (_days_before_month_end (y + 1) m Hm). lia.
Qed.

Lemma lt_midnight y m d y' m' d' :
  lt (mkDatetime y m d 0 0 0 0) (mkDatetime y' m' d' 0 0 0 0)
  = (y <? y') || ((y =? y') && ((m <? m') || ((m =? m') && (d <? d')))).
Proof.
  unfold lt, fields. simpl.
  destruct (y <? y'), (y =? y'), (m <? m'), (m =? m'), (d <? d'), (d =? d'); done.
Qed.

Lemma sub_days_midnight y m d y' m' d' :
  sub_days (mkDatetime y m d 0 0 0 0) (mkDatetime y' m' d' 0 0 0 0)
  = _ymd2ord y m d - _ymd2ord y' m' d'.
Proof.
  unfold sub_days, toordinal. simpl.
  rewrite Z.add_0_r, Z.add_0_r, <- Z.mul_assoc. by apply Z.div_mul.
Qed.

End DatetimeFacts.

(** ** [days_to_birthday] *)

Section DaysToBirthday.
Import Datetime.
Local Open Scope Z_scope.

(** [int(t.strftime("%d"))] gives the number back. *)
Lemma py_int_pad2 n : 0 <= n < 100 -> Strptime.py_int (pad2 n) = Return n.
Proof.
  intros Hn.
  assert (forallb (fun k => match Strptime.py_int (pad2 k) with
                            | Return r => r =? k
                            | Raise _ => false
                            end) (seqZ 0 100) = true) as Hall
    by (vm_compute; reflexivity).
  rewrite forallb_forall in Hall. specialize (Hall n).
  destruct (Strptime.py_int (pad2 n)) as [r|e].
  - f_equal. apply Z.eqb_eq, Hall. apply list_elem_of_In, elem_of_seqZ. lia.
  - discriminate Hall. apply list_elem_of_In, elem_of_seqZ. lia.
Qed.

(** A [str] has no [strftime]: whatever the text, the call stops there. *)
Lemma days_to_birthday_str now self b s :
  birthday self = Some b -> value b = VStr s ->
  date_fields_ok (year now) (month now) (day now) = true ->
  days_to_birthday now self
  = Raise (AttributeError "'str' object has no attribute 'strftime'").
Proof.
  intros Hb Hv Hnow. unfold days_to_birthday. rewrite Hb.
  rewrite (datetime_init_ok _ _ _ Hnow). simpl. simpl in Hv. by rewrite Hv.
Qed.

Lemma days_to_birthday_datetime now self b t :
  birthday self = Some b -> value b = VDatetime t ->
  date_fields_ok (year now) (month now) (day now) = true ->
  date_fields_ok (year now) (month t) (day t) = true ->
  (earlier_in_year (month t) (day t) (month now) (day now) = true ->
   date_fields_ok (year now + 1) (month t) (day t) = true) ->
  days_to_birthday now self
  = Return (Days (_ymd2ord (if earlier_in_year (month t) (day t) (month now) (day now)
                            then year now + 1 else year now) (month t) (day t)
                  - _ymd2ord (year now) (month now) (day now))).
Proof.
  intros Hb Hv Hnow Hthis Hnext. unfold days_to_birthday. rewrite Hb.
  rewrite (datetime_init_ok _ _ _ Hnow). simpl. simpl in Hv. rewrite Hv. simpl.
  pose proof (date_fields_ok_bounds _ _ _ Hthis) as (_ & Hm & Hd).
  pose proof (_days_in_month_le (year now) (month t) Hm).
  rewrite !py_int_pad2 by lia. simpl.
  rewrite (datetime_init_ok _ _ _ Hthis). simpl.
  rewrite lt_midnight, Z.ltb_irrefl, Z.eqb_refl. simpl.
  fold (earlier_in_year (month t) (day t) (month now) (day now)).
  destruct (earlier_in_year (month t) (day t) (month now) (day now)) eqn:E.
  - rewrite (datetime_init_ok _ _ _ (Hnext eq_refl)). simpl.
    by rewrite sub_days_midnight.
  - simpl. by rewrite sub_days_midnight.
Qed.

(** A record that [Record] built with a birthday holds the text, so the
    call raises on it whatever the day. *)
Lemma days_to_birthday_after_init now name_arg s self :
  Record_init name_arg (Some s) = Return self -> PyStr.truthy s = true ->
  date_fields_ok (year now) (month now) (day now) = true ->
  days_to_birthday now self
  = Raise (AttributeError "'str' object has no attribute 'strftime'").
Proof.
  unfold Record_init. intros H Hs Hnow. rewrite Hs in H.
  destruct (Name_init name_arg) as [n|e]; [|done]. simpl in H.
  unfold Birthday_init in H.
  destruct (validate_birthday_format s) as [t|e]; [|done]. simpl in H.
  injection H as <-. by eapply days_to_birthday_str.
Qed.

End DaysToBirthday.

(** C2, as amended.  For a record whose birthday holds a [datetime] (the
    value [strftime] is called on), and whenever the dates the code
    builds exist, [days_to_birthday] returns the number of days from
    today, cut to midnight, to the next birthday: this year's day and
    month, or next year's when this year's is strictly before today.
    The number is never negative.  On 10 January 2024 it is 5 for a
    birthday on 15 January and 361 for one on 5 January. *)
Theorem days_to_birthday_counts
    (now : Datetime.datetime) (self : Record_) (b : Birthday) (t : Datetime.datetime) :
  birthday self = Some b -> value b = VDatetime t ->
  Datetime.date_fields_ok (Datetime.year now) (Datetime.month now) (Datetime.day now) = true ->
  Datetime.date_fields_ok (Datetime.year now) (Datetime.month t) (Datetime.day t) = true ->
  (earlier_in_year (Datetime.month t) (Datetime.day t)
     (Datetime.month now) (Datetime.day now) = true ->
   Datetime.date_fields_ok (Datetime.year now + 1) (Datetime.month t) (Datetime.day t) = true) ->
  exists days,
    days_to_birthday now self = Return (Days days)
    /\ days
       = (Datetime._ymd2ord
            (if earlier_in_year (Datetime.month t) (Datetime.day t)
                  (Datetime.month now) (Datetime.day now)
             then Datetime.year now + 1 else Datetime.year now)
            (Datetime.month t) (Datetime.day t)
          - Datetime._ymd2ord (Datetime.year now) (Datetime.month now) (Datetime.day now))%Z
    /\ (0 <= days)%Z
    /\ days_to_birthday jan10_2024
         (born (VDatetime (Datetime.mkDatetime 1990 1 15 0 0 0 0))) = Return (Days 5)
    /\ days_to_birthday jan10_2024
         (born (VDatetime (Datetime.mkDatetime 1990 1 5 0 0 0 0))) = Return (Days 361).
Proof.
  intros Hb Hv Hnow Hthis Hnext. eexists. split.
  { by apply (days_to_birthday_datetime now self b t). }
  split; [done|]. split; [|split; reflexivity].
  unfold earlier_in_year in *.
  destruct ((Datetime.month t <? Datetime.month now)%Z
            || (Datetime.month t =? Datetime.month now)%Z
               && (Datetime.day t <? Datetime.day now)%Z) eqn:E.
  - pose proof (_ymd2ord_next_year _ _ _ _ _ (Hnext eq_refl) Hnow). lia.
  - pose proof (_ymd2ord_same_year _ _ _ _ _ Hthis Hnow E). lia.
Qed.

Lemma days_to_birthday_counts_witness :
  exists days,
    days_to_birthday jan10_2024
      (born (VDatetime (Datetime.mkDatetime 1990 1 5 0 0 0 0))) = Return (Days days)
    /\ days
       = (Datetime._ymd2ord
            (if earlier_in_year 1 5 1 10 then 2024 + 1 else 2024) 1 5
          - Datetime._ymd2ord 2024 1 10)%Z
    /\ (0 <= days)%Z
    /\ days_to_birthday jan10_2024
         (born (VDatetime (Datetime.mkDatetime 1990 1 15 0 0 0 0))) = Return (Days 5)
    /\ days_to_birthday jan10_2024
         (born (VDatetime (Datetime.mkDatetime 1990 1 5 0 0 0 0))) = Return (Days 361).
Proof.
  apply (days_to_birthday_counts jan10_2024
           (born (VDatetime (Datetime.mkDatetime 1990 1 5 0 0 0 0)))
           (mkBirthday (VDatetime (Datetime.mkDatetime 1990 1 5 0 0 0 0)))
           (Datetime.mkDatetime 1990 1 5 0 0 0 0)).
  - reflexivity.
  - reflexivity.
  - reflexivity.
  - reflexivity.
  - intros _. reflexivity.
Defined.

(** C2 as written fails.  On 10 January 2024, for a record built with the
    birthday "05.01.1990" or "15.01.1990", [days_to_birthday] raises
    [AttributeError], the stored value being the text; and when the
    value is the date itself, 5 January is 361 days ahead, not 360. *)
Lemma days_to_birthday_not_360 :
  (exists self, Record_init "Ann" (Some "05.01.1990"%string) = Return self
                /\ days_to_birthday jan10_2024 self
                   = Raise (AttributeError "'str' object has no attribute 'strftime'"))
  /\ (exists self, Record_init "Ann" (Some "15.01.1990"%string) = Return self
                   /\ days_to_birthday jan10_2024 self
                      = Raise (AttributeError "'str' object has no attribute 'strftime'"))
  /\ days_to_birthday jan10_2024
       (born (VDatetime (Datetime.mkDatetime 1990 1 5 0 0 0 0))) <> Return (Days 360).
Proof.
  split; [|split].
  - eexists. split; reflexivity.
  - eexists. split; reflexivity.
  - discriminate.
Qed.

(** ** [Birthday] and [strptime] *)

Section StrptimeFacts.
Import PyStr Strptime.

Ltac ord_consts :=
  repeat match goal with
  | |- context [ord (Ascii ?a ?b ?c ?d ?e ?f ?g ?h)] =>
      let v := eval vm_compute in (ord (Ascii a b c d e f g h)) in
      change (ord (Ascii a b c d e f g h)) with v
  | H : context [ord (Ascii ?a ?b ?c ?d ?e ?f ?g ?h)] |- _ =>
      let v := eval vm_compute in (ord (Ascii a b c d e f g h)) in
      change (ord (Ascii a b c d e f g h)) with v in H
  end.

Ltac classes :=
  unfold lang, re_d, re_m, re_Y, re_dot, digits, text_value, day_value, no_dot in *;
  cbn [existsb in_classes all_chars int_digits String.length] in *;
  unfold is_char, in_range, char_isdecimal, digit_value in *; ord_consts.

(** [lstrip] on a text whose first character is known by its code. *)
Ltac strip :=
  repeat (cbn [lstrip]; unfold is_char; ord_consts;
          match goal with
          | |- context [if (?a =? ?b)%Z then _ else _] =>
              destruct (Z.eqb_spec a b); try lia
          end);
  cbn [int_digits]; unfold digit_value.

Lemma ord_inj c c' : ord c = ord c' -> c = c'.
Proof.
  unfold ord. intros H. apply N2Z.inj in H.
  by rewrite <- (ascii_N_embedding c), H, ascii_N_embedding.
Qed.

Lemma match_classes_spec cls s t r :
  match_classes cls s = Some (t, r) <-> s = (t ++ r)%string /\ in_classes cls t = true.
Proof.
  revert s t r. induction cls as [|p cls IH]; intros s t r; simpl.
  - split.
    + intros [= <- <-]. done.
    + intros [-> Ht]. by destruct t.
  - destruct s as [|c s].
    + split; [done|]. intros [Hs Ht]. destruct t; [done|]. discriminate Hs.
    + destruct (p c) eqn:Hp.
      * destruct (match_classes cls s) as [[m r']|] eqn:E.
        -- apply IH in E as [-> Hm]. split.
           ++ intros [= <- <-]. simpl. by rewrite Hp, Hm.
           ++ intros [Hs Ht]. destruct t as [|c' t]; [done|].
              simpl in Hs. injection Hs as <- Hs.
              apply andb_prop in Ht as [_ Ht].
              assert (match_classes cls (m ++ r') = Some (t, r)) as E'
                by (apply IH; by rewrite Hs).
              assert (match_classes cls (m ++ r') = Some (m, r')) as E''
                by by apply IH.
              congruence.
        -- split; [done|]. intros [Hs Ht]. destruct t as [|c' t]; [done|].
           simpl in Hs. injection Hs as <- ->.
           apply andb_prop in Ht as [_ Ht].
           assert (match_classes cls (t ++ r) = Some (t, r)) as E' by by apply IH.
           congruence.
      * split; [done|]. intros [Hs Ht]. destruct t as [|c' t]; [done|].
        simpl in Hs. injection Hs as <- ->. rewrite Hp in Ht. done.
Qed.

Lemma re_match_spec alts s t r :
  (t, r) ∈ re_match alts s <-> s = (t ++ r)%string /\ lang alts t = true.
Proof.
  unfold re_match, lang. rewrite list_elem_of_omap, existsb_exists. split.
  - intros (cls & Hin & Hm). apply match_classes_spec in Hm as [-> Ht].
    split; [done|]. exists cls. split; [by apply list_elem_of_In|done].
  - intros [-> (cls & Hin & Ht)]. exists cls. split; [by apply list_elem_of_In|].
    by apply match_classes_spec.
Qed.

Lemma lang_dot t : lang re_dot t = true <-> t = "."%string.
Proof.
  split.
  - destruct t as [|c [|c' t]]; classes; intros H; try lia.
    f_equal. apply ord_inj. ord_consts. lia.
  - by intros ->.
Qed.

(** What the day group matches, and what [int] makes of it. *)
Lemma lang_d_day_text ds :
  lang re_d ds = true ->
  day_text ds (day_value ds) /\ py_int ds = Return (day_value ds) /\ no_dot ds = true.
Proof.
  intros H. unfold day_text, py_int, isdecimal.
  destruct ds as [|c1 [|c2 [|c3 ds]]]; classes; try lia.
  - strip. cbn [truthy all_chars]. unfold char_isdecimal.
    split; [split; [left|]; lia|]. split; [|lia].
    by replace ((48 <=? ord c1)%Z && (ord c1 <=? 57)%Z && true) with true by lia.
  - destruct (Z.eqb_spec (ord c1) 32) as [Hb|Hb].
    + strip. cbn [truthy all_chars]. unfold char_isdecimal.
      split; [split; [|lia]|].
      * right. exists c2. classes.
        split; [|lia]. do 2 f_equal. apply ord_inj. ord_consts. lia.
      * split; [|lia].
        by replace ((48 <=? ord c2)%Z && (ord c2 <=? 57)%Z && true) with true by lia.
    + strip. cbn [truthy all_chars]. unfold char_isdecimal.
      split; [split; [left|]; lia|]. split; [|lia].
      by replace ((48 <=? ord c1)%Z && (ord c1 <=? 57)%Z
                  && ((48 <=? ord c2)%Z && (ord c2 <=? 57)%Z && true))
        with true by lia.
Qed.

Lemma day_text_lang ds dv :
  day_text ds dv -> lang re_d ds = true /\ dv = day_value ds.
Proof.
  intros [[(Hlen & Hd & ->)|(c & -> & Hc & ->)] Hr].
  - destruct ds as [|c1 [|c2 [|c3 ds]]]; classes; simpl in Hlen; try lia.
    + strip. lia.
    + strip; lia.
  - classes. strip. lia.
Qed.

(** The same for the month group. *)
Lemma lang_m_month_text ms :
  lang re_m ms = true ->
  month_text ms (text_value ms) /\ py_int ms = Return (text_value ms)
  /\ no_dot ms = true.
Proof.
  intros H. unfold month_text, py_int, isdecimal.
  destruct ms as [|c1 [|c2 [|c3 ms]]]; classes; try lia.
  - strip. cbn [truthy all_chars]. unfold char_isdecimal.
    split; [lia|]. split; [|lia].
    by replace ((48 <=? ord c1)%Z && (ord c1 <=? 57)%Z && true) with true by lia.
  - strip. cbn [truthy all_chars]. unfold char_isdecimal.
    split; [lia|]. split; [|lia].
    by replace ((48 <=? ord c1)%Z && (ord c1 <=? 57)%Z
                && ((48 <=? ord c2)%Z && (ord c2 <=? 57)%Z && true))
      with true by lia.
Qed.

Lemma month_text_lang ms mv :
  month_text ms mv -> lang re_m ms = true /\ mv = text_value ms.
Proof.
  intros (Hlen & Hd & -> & Hr).
  destruct ms as [|c1 [|c2 [|c3 ms]]]; classes; simpl in Hlen; lia.
Qed.

(** And for the year group. *)
Lemma lang_Y_year_text ys :
  lang re_Y ys = true ->
  year_text ys (text_value ys) /\ py_int ys = Return (text_value ys).
Proof.
  intros H. unfold year_text, py_int, isdecimal.
  destruct ys as [|c1 [|c2 [|c3 [|c4 [|c5 ys]]]]]; classes; try lia.
  strip. cbn [truthy all_chars]. unfold char_isdecimal.
  split; [split; [done|lia]|].
  by replace ((48 <=? ord c1)%Z && (ord c1 <=? 57)%Z
              && ((48 <=? ord c2)%Z && (ord c2 <=? 57)%Z
                  && ((48 <=? ord c3)%Z && (ord c3 <=? 57)%Z
                      && ((48 <=? ord c4)%Z && (ord c4 <=? 57)%Z && true))))
    with true by lia.
Qed.

Lemma year_text_lang ys yv :
  year_text ys yv -> lang re_Y ys = true /\ yv = text_value ys.
Proof.
  intros (Hlen & Hd & ->).
  destruct ys as [|c1 [|c2 [|c3 [|c4 [|c5 ys]]]]]; classes; simpl in Hlen; lia.
Qed.
(** Every way to match the format, read as a cut of the input. *)
Lemma format_regex_spec s d m y r :
  (d, m, y, r) ∈ format_regex s
  <-> s = (d ++ "." ++ m ++ "." ++ y ++ r)%string
      /\ lang re_d d = true /\ lang re_m m = true /\ lang re_Y y = true.
Proof.
  unfold format_regex. split.
  - intros H.
    apply list_elem_of_bind in H as ([d' s1] & H & H1).
    apply list_elem_of_bind in H as ([dot1 s2] & H & H2).
    apply list_elem_of_bind in H as ([m' s3] & H & H3).
    apply list_elem_of_bind in H as ([dot2 s4] & H & H4).
    apply list_elem_of_bind in H as ([y' s5] & H & H5).
    apply list_elem_of_singleton in H. injection H as -> -> -> ->.
    apply re_match_spec in H1 as [-> Hd], H2 as [-> Hdot1], H3 as [-> Hm],
      H4 as [-> Hdot2], H5 as [-> Hy].
    apply lang_dot in Hdot1 as ->, Hdot2 as ->. done.
  - intros (-> & Hd & Hm & Hy).
    apply list_elem_of_bind. exists (d, ("." ++ m ++ "." ++ y ++ r)%string).
    split; [|by apply re_match_spec].
    apply list_elem_of_bind. exists ("."%string, (m ++ "." ++ y ++ r)%string).
    split; [|by apply re_match_spec].
    apply list_elem_of_bind. exists (m, ("." ++ y ++ r)%string).
    split; [|by apply re_match_spec].
    apply list_elem_of_bind. exists ("."%string, (y ++ r)%string).
    split; [|by apply re_match_spec].
    apply list_elem_of_bind. exists (y, r).
    split; [|by apply re_match_spec].
    by apply list_elem_of_singleton.
Qed.

(** A text without full stop ends where the first full stop stands. *)
Lemma split_at_dot a b a' b' :
  no_dot a = true -> no_dot a' = true ->
  (a ++ "." ++ b)%string = (a' ++ "." ++ b')%string -> a = a' /\ b = b'.
Proof.
  revert a'. induction a as [|c a IH]; intros [|c' a'] Ha Ha' E; simpl in *.
  - by simplify_eq.
  - by simplify_eq.
  - by simplify_eq.
  - apply andb_prop in Ha as [_ Ha], Ha' as [_ Ha']. simplify_eq.
    by destruct (IH a' Ha Ha' ltac:(done)) as [-> ->].
Qed.

Lemma split_at_length a b a' b' :
  String.length a = String.length a' ->
  (a ++ b)%string = (a' ++ b')%string -> a = a' /\ b = b'.
Proof.
  revert a'. induction a as [|c a IH]; intros [|c' a'] Hl E; simpl in *; try done.
  simplify_eq. by destruct (IH a' ltac:(done) ltac:(done)) as [-> ->].
Qed.

(** The format matches in at most one way. *)
Lemma format_regex_unique s x x' :
  x ∈ format_regex s -> x' ∈ format_regex s -> x = x'.
Proof.
  destruct x as [[[d m] y] r], x' as [[[d' m'] y'] r'].
  intros (E & Hd & Hm & Hy)%format_regex_spec (E' & Hd' & Hm' & Hy')%format_regex_spec.
  rewrite E in E'.
  apply lang_d_day_text in Hd as (_ & _ & Hd), Hd' as (_ & _ & Hd').
  apply lang_m_month_text in Hm as (_ & _ & Hm), Hm' as (_ & _ & Hm').
  apply lang_Y_year_text in Hy as ((Hy & _) & _), Hy' as ((Hy' & _) & _).
  apply split_at_dot in E' as [-> E']; [|done..].
  apply split_at_dot in E' as [-> E']; [|done..].
  apply split_at_length in E' as [-> ->]; [done|congruence].
Qed.

Lemma format_regex_head s x :
  head (format_regex s) = Some x <-> x ∈ format_regex s.
Proof.
  split.
  - intros H. destruct (format_regex s) as [|y l]; [done|].
    injection H as ->. by left.
  - intros H. destruct (format_regex s) as [|y l] eqn:E; [by apply elem_of_nil in H|].
    simpl. f_equal. apply (format_regex_unique s); rewrite E; [by left|done].
Qed.
Lemma append_empty_r (s : string) : (s ++ "")%string = s.
Proof.
  induction s as [|c s IH]; [done|].
  change (String c (s ++ "")%string = String c s). by rewrite IH.
Qed.

Lemma parses_as_date_matches s :
  parses_as_date s
  <-> exists d m y,
        (d, m, y, ""%string) ∈ format_regex s
        /\ Datetime.date_fields_ok (text_value y) (text_value m) (day_value d) = true.
Proof.
  split.
  - intros (ds & ms & ys & dv & mv & yv & -> & Hd & Hm & Hy & Hok).
    apply day_text_lang in Hd as [Hd ->].
    apply month_text_lang in Hm as [Hm ->].
    apply year_text_lang in Hy as [Hy ->].
    exists ds, ms, ys. split; [|done].
    apply format_regex_spec. rewrite append_empty_r. auto.
  - intros (d & m & y & (-> & Hd & Hm & Hy)%format_regex_spec & Hok).
    exists d, m, y, (day_value d), (text_value m), (text_value y).
    rewrite append_empty_r. split; [done|].
    apply lang_d_day_text in Hd as (Hd & _).
    apply lang_m_month_text in Hm as (Hm & _).
    apply lang_Y_year_text in Hy as (Hy & _). auto.
Qed.

Lemma datetime_init_cases y m d :
  (Datetime.date_fields_ok y m d = true
   /\ Datetime.datetime_init y m d = Return (Datetime.mkDatetime y m d 0 0 0 0))
  \/ (Datetime.date_fields_ok y m d = false
      /\ exists msg, Datetime.datetime_init y m d = Raise (ValueError msg)).
Proof.
  unfold Datetime.date_fields_ok, Datetime.datetime_init.
  destruct ((Datetime.MINYEAR <=? y)%Z && (y <=? Datetime.MAXYEAR)%Z); simpl;
    [|right; eauto].
  destruct ((1 <=? m)%Z && (m <=? 12)%Z); simpl; [|right; eauto].
  destruct ((1 <=? d)%Z && (d <=? Datetime._days_in_month y m)%Z); simpl;
    [left|right]; eauto.
Qed.

(** [_strptime] answers a date exactly on the texts that parse as one,
    and raises [ValueError] on all others. *)
Lemma _strptime_cases s :
  (parses_as_date s
   /\ exists y m d, _strptime s = Return (y, m, d)
                    /\ Datetime.date_fields_ok y m d = true)
  \/ (~ parses_as_date s /\ exists msg, _strptime s = Raise (ValueError msg)).
Proof.
  unfold _strptime.
  destruct (head (format_regex s)) as [[[[d m] y] r]|] eqn:E.
  - apply format_regex_head in E.
    pose proof E as (Hs & Hd & Hm & Hy)%format_regex_spec.
    apply lang_d_day_text in Hd as (_ & Hd & _).
    apply lang_m_month_text in Hm as (_ & Hm & _).
    apply lang_Y_year_text in Hy as (_ & Hy).
    destruct r as [|c r]; simpl.
    + rewrite Hy, Hm, Hd. simpl.
      destruct (datetime_init_cases (text_value y) (text_value m) (day_value d))
        as [[Hok ->]|[Hok (msg & ->)]]; simpl.
      * left. split; [|by eauto]. apply parses_as_date_matches. by eauto.
      * right. split; [|by eauto].
        intros (d' & m' & y' & E' & Hok')%parses_as_date_matches.
        pose proof (format_regex_unique _ _ _ E E') as [= <- <- <-]. congruence.
    + right. split; [|by eauto].
      intros (d' & m' & y' & E' & Hok')%parses_as_date_matches.
      by pose proof (format_regex_unique _ _ _ E E').
  - right. split; [|by eauto].
    intros (d' & m' & y' & E' & Hok')%parses_as_date_matches.
    apply format_regex_head in E'. congruence.
Qed.

Lemma Birthday_init_cases s :
  (parses_as_date s /\ Birthday_init s = Return (mkBirthday (VStr s)))
  \/ (~ parses_as_date s
      /\ Birthday_init s = Raise (ValueError "Birthday is not a date")).
Proof.
  unfold Birthday_init, validate_birthday_format, strptime.
  destruct (_strptime_cases s) as [[Hp (y & m & d & -> & Hok)]|[Hp (msg & ->)]].
  - left. split; [done|]. simpl.
    by destruct (datetime_init_cases y m d) as [[_ ->]|[? _]]; [|congruence].
  - by right.
Qed.
End StrptimeFacts.

(** ** The parser against the reader's date *)

Section DateTextFacts.
Import PyStr Strptime.
Local Open Scope Z_scope.












End DateTextFacts.




(** ** Fields are checked when built, not when assigned *)

(** C1, as amended.  A field is checked when it is built and not when it
    is assigned: each variant's constructor lets through only a value
    that passes its test, and the setter of each variant stores whatever
    it is given.  A phone that [Phone] builds has ten characters, all of
    them digits for [str.isdigit]; and on a record whose phones all are
    so, any sequence of [add_phone], [remove_phone] and [edit_phone]
    calls keeps them so, provided the new value of every [edit_phone] in
    it is so. *)
Theorem fields_checked_at_construction_only :
  (forall (n : Name) v, value (set_value v n) = v)
  /\ (forall (p : Phone) v, value (set_value v p) = v)
  /\ (forall (b : Birthday) v, value (set_value v b) = v)
  /\ (forall v n, Name_init v = Return n -> v <> EmptyString /\ value n = v)
  /\ (forall v b, Birthday_init v = Return b
                  -> parses_as_date v /\ value b = VStr v)
  /\ (forall v p, Phone_init v = Return p -> phone_ok p /\ value p = v)
  /\ (forall ops self,
        Forall phone_ok (phones self) -> Forall edit_new_ok ops ->
        Forall phone_ok (phones (run_ops ops self))).
Proof.
  split; [done|]. split; [done|]. split; [done|].
  split; [|split; [|split]].
  - intros [|c v] n; [done|]. by intros [= <-].
  - intros v b Hb.
    destruct (Birthday_init_cases v) as [[Hp E]|[_ E]]; rewrite E in Hb; [|done].
    by injection Hb as <-.
  - intros v p Hp. split; [by eapply Phone_init_phone_ok|].
    by apply Phone_init_Return in Hp as [_ ->].
  - apply run_ops_phone_ok.
Qed.

Lemma fields_checked_at_construction_only_witness :
  Forall phone_ok
    (phones (run_ops [OpAdd "0987654321"; OpEdit "1234567890" "1112223334";
                      OpRemove "5550001111"; OpAdd "12"]
               sample_record)).
Proof.
  apply (proj2 (proj2 (proj2 (proj2 (proj2 (proj2
           fields_checked_at_construction_only)))))).
  - repeat constructor.
  - repeat constructor.
Defined.

(** C1 as written fails: [edit_phone] puts "abc" in the place of a phone,
    unchecked, and the record then holds a phone that is not ten digits. *)
Lemma edit_phone_stores_unchecked :
  edit_phone "5550001111" "abc" sample_record
  = (Return tt,
     with_phones [mkPhone "1234567890"; mkPhone "abc"; mkPhone "1234567890"]
       sample_record)
  /\ ~ Forall phone_decimal (phones (edit_phone "5550001111" "abc" sample_record).2)
  /\ validate_phone_format "abc"
     = Raise (ValueError "Phone number should be a 10-digit number").
Proof.
  split; [reflexivity|]. split; [|reflexivity].
  intros H. inversion H as [|? ? _ H']; subst.
  inversion H' as [|? ? [Hlen _] _]; subst. discriminate Hlen.
Qed.

(** ** Examples *)

Example Birthday_init_two_digits :
  Birthday_init "17.03.1990" = Return (mkBirthday (VStr "17.03.1990")).
Proof. reflexivity. Qed.

Example Birthday_init_one_digit :
  Birthday_init "1.1.1990" = Return (mkBirthday (VStr "1.1.1990")).
Proof. reflexivity. Qed.

Example Birthday_init_blank_day :
  Birthday_init " 7.03.1990" = Return (mkBirthday (VStr " 7.03.1990")).
Proof. reflexivity. Qed.

Example Birthday_init_feb30 :
  Birthday_init "30.02.1990" = Raise (ValueError "Birthday is not a date").
Proof. reflexivity. Qed.

Example Birthday_init_three_digit_day :
  Birthday_init "007.03.1990" = Raise (ValueError "Birthday is not a date").
Proof. reflexivity. Qed.

Example Birthday_init_year_zero :
  Birthday_init "17.03.0000" = Raise (ValueError "Birthday is not a date").
Proof. reflexivity. Qed.

Example Birthday_init_trailing :
  Birthday_init "17.03.19901" = Raise (ValueError "Birthday is not a date").
Proof. reflexivity. Qed.

Example datetime_init_year_10000 :
  Datetime.datetime_init 10000 1 1 = Raise (ValueError "year 10000 is out of range").
Proof. reflexivity. Qed.

Example datetime_init_year_negative :
  Datetime.datetime_init (-5) 1 1 = Raise (ValueError "year -5 is out of range").
Proof. reflexivity. Qed.

Example datetime_init_year_0 :
  Datetime.datetime_init 0 1 1 = Raise (ValueError "year 0 is out of range").
Proof. reflexivity. Qed.

Example OSError_text :
  exn_str (OSError 13 "Permission denied" (Some "my_address_book"%string))
  = Some "[Errno 13] Permission denied: 'my_address_book'"%string
  /\ exn_str (OSError 28 "No space left on device" None)
     = Some "[Errno 28] No space left on device"%string.
Proof. split; reflexivity. Qed.

(* ================================================================= *)
(** * Further properties of the records *)

(** ** Adding, removing and finding phones *)

Section PhoneOperations.
Implicit Types (ps : list Phone) (self : Record_).

Lemma with_phones_same self : with_phones (phones self) self = self.
Proof. by destruct self. Qed.

Lemma Phone_eta (p : Phone) : mkPhone (value p) = p.
Proof. by destruct p. Qed.

(** The search of [remove_phone] and the [list.remove] after it act on
    the first phone that has the value. *)
Lemma remove_phone_loop ps n :
  match List.find (fun phone => String.eqb (value phone) n) ps with
  | Some p => exists i, first_match n ps i /\ list_remove p ps = Return (base.delete i ps)
  | None => Forall (fun p => value p <> n) ps
  end.
Proof.
  induction ps as [|q ps IH]; simpl; [constructor|].
  destruct (String.eqb_spec (phone_value q) n) as [Heq|Hne].
  - exists 0%nat. split.
    + split; [by exists q|]. intros j ? Hj. lia.
    + simpl. unfold Phone_eq. simpl. by rewrite String.eqb_refl.
  - destruct (List.find _ ps) as [p|] eqn:E.
    + destruct IH as (i & [(p' & Hp' & Hv) Hfirst] & Hrm).
      exists (S i). split.
      * split; [by exists p'|].
        intros [|j] q' Hj Hq'; simpl in Hq'; [by injection Hq' as <-|].
        apply (Hfirst j); [lia|done].
      * apply find_some in E as [_ Ep]. apply String.eqb_eq in Ep.
        simpl in Ep. simpl. unfold Phone_eq. simpl. rewrite Ep.
        destruct (String.eqb_spec (phone_value q) n) as [?|_]; [done|].
        by rewrite Hrm.
    + by constructor.
Qed.

Lemma find_first_match ps n i :
  first_match n ps i ->
  List.find (fun phone => String.eqb (value phone) n) ps = Some (mkPhone n).
Proof.
  revert i. induction ps as [|q ps IH]; intros i [(p & Hp & Hv) Hfirst].
  - done.
  - simpl. destruct (String.eqb_spec (phone_value q) n) as [Heq|Hne].
    + f_equal. rewrite <- Heq. by destruct q.
    + destruct i as [|i]; [simpl in Hp; by injection Hp as <-|].
      apply (IH i). split; [by exists p|].
      intros j q' Hj Hq'. apply (Hfirst (S j)); [lia|done].
Qed.

Lemma first_match_app_new ps n :
  Forall (fun p => value p <> n) ps -> first_match n (ps ++ [mkPhone n]) (length ps).
Proof.
  intros H. split.
  - exists (mkPhone n). split; [|done]. by rewrite list_lookup_middle.
  - intros j q Hj Hq. rewrite lookup_app_l in Hq by done.
    rewrite Forall_forall in H. apply H. by eapply list_elem_of_lookup_2.
Qed.

End PhoneOperations.

(** X2.  [remove_phone] never raises.  When no phone has the value the
    record is unchanged; otherwise exactly the first phone with the value
    goes and the others keep their order. *)
Theorem remove_phone_first (phone_number : string) (self : Record_) :
  (remove_phone phone_number self).1 = Return tt
  /\ (Forall (fun p => value p <> phone_number) (phones self)
      -> remove_phone phone_number self = (Return tt, self))
  /\ (forall i, first_match phone_number (phones self) i
      -> remove_phone phone_number self
         = (Return tt, with_phones (base.delete i (phones self)) self)).
Proof.
  unfold remove_phone.
  pose proof (remove_phone_loop (phones self) phone_number) as H.
  destruct (List.find _ (phones self)) as [p|] eqn:E.
  - destruct H as (i & Hi & ->). simpl. split; [done|]. split.
    + intros Hall. destruct Hi as [(q & Hq & Hv) _].
      rewrite Forall_forall in Hall. exfalso.
      apply (Hall q); [by eapply list_elem_of_lookup_2|done].
    + intros j Hj. by rewrite (first_match_unique _ _ _ _ Hj Hi).
  - split; [done|]. split; [done|].
    intros i [(q & Hq & Hv) _]. rewrite Forall_forall in H. exfalso.
    apply (H q); [by eapply list_elem_of_lookup_2|done].
Qed.

Lemma remove_phone_first_witness :
  remove_phone "0000000000" sample_record = (Return tt, sample_record)
  /\ remove_phone "1234567890" sample_record
     = (Return tt, with_phones (base.delete 0%nat (phones sample_record)) sample_record).
Proof.
  split.
  - apply (proj1 (proj2 (remove_phone_first "0000000000" sample_record))).
    repeat constructor; discriminate.
  - apply (proj2 (proj2 (remove_phone_first "1234567890" sample_record)) 0%nat).
    split; [by exists (mkPhone "1234567890")|]. intros j q Hj. lia.
Defined.

Lemma add_phone_valid (phone_number : string) (self : Record_) :
  validate_phone_format phone_number = Return tt ->
  add_phone phone_number self
  = (Return tt, with_phones (phones self ++ [mkPhone phone_number]) self).
Proof. intros H. unfold add_phone, Phone_init. by rewrite H. Qed.

Lemma remove_phone_at (phone_number : string) (self : Record_) i :
  first_match phone_number (phones self) i ->
  remove_phone phone_number self
  = (Return tt, with_phones (base.delete i (phones self)) self).
Proof.
  intros Hi. unfold remove_phone.
  pose proof (remove_phone_loop (phones self) phone_number) as H.
  destruct (List.find _ (phones self)) as [p|] eqn:E.
  - destruct H as (j & Hj & ->). by rewrite (first_match_unique _ _ _ _ Hi Hj).
  - destruct Hi as [(q & Hq & Hv) _]. rewrite Forall_forall in H. exfalso.
    apply (H q); [by eapply list_elem_of_lookup_2|done].
Qed.

(** X3.  A number that [add_phone] accepted is found by [find_phone]
    afterwards: the answer is a phone with that value. *)
Theorem add_phone_then_find_phone (phone_number : string) (self : Record_) :
  validate_phone_format phone_number = Return tt ->
  find_phone phone_number (add_phone phone_number self).2
  = Return (Some (mkPhone phone_number)).
Proof.
  intros H. rewrite (add_phone_valid _ _ H). unfold find_phone. simpl.
  rewrite (find_phone_loop_valid _ _ H). f_equal.
  destruct (first_match_exists (phones self ++ [mkPhone phone_number]) phone_number)
    as [i Hi].
  { apply Exists_app. right. by constructor. }
  by eapply find_first_match.
Qed.

Lemma add_phone_then_find_phone_witness :
  find_phone "0987654321" (add_phone "0987654321" sample_record).2
  = Return (Some (mkPhone "0987654321")).
Proof. apply (add_phone_then_find_phone "0987654321" sample_record). reflexivity. Defined.

(** X4.  Removing a number right after adding it gives the record back,
    when the number was not there before. *)
Theorem add_phone_then_remove_phone (phone_number : string) (self : Record_) :
  validate_phone_format phone_number = Return tt ->
  Forall (fun p => value p <> phone_number) (phones self) ->
  remove_phone phone_number (add_phone phone_number self).2 = (Return tt, self).
Proof.
  intros H Habs. rewrite (add_phone_valid _ _ H). simpl.
  rewrite (remove_phone_at _ _ (length (phones self))).
  - simpl. f_equal. destruct self as [n ps b]. unfold with_phones. simpl. f_equal.
    clear. induction ps as [|p ps IH]; simpl; [done|]. by rewrite IH.
  - simpl. by apply first_match_app_new.
Qed.

Lemma add_phone_then_remove_phone_witness :
  remove_phone "0987654321" (add_phone "0987654321" sample_record).2
  = (Return tt, sample_record).
Proof.
  apply (add_phone_then_remove_phone "0987654321" sample_record).
  - reflexivity.
  - repeat constructor; discriminate.
Defined.

(** X5.  Editing a number to a new one that the record did not hold and
    then editing it back gives the record back. *)
Theorem edit_phone_and_back (old new : string) (self : Record_) :
  Exists (fun p => value p = old) (phones self) ->
  Forall (fun p => value p <> new) (phones self) ->
  edit_phone new old (edit_phone old new self).2 = (Return tt, self).
Proof.
  intros Hold Hnew. destruct (first_match_exists _ _ Hold) as [i Hi].
  assert (edit_phone_loop (phones self) old new
          = Some (<[i := mkPhone new]> (phones self))) as E1.
  { apply edit_phone_loop_Some. by exists i. }
  destruct Hi as [(p & Hp & Hv) Hfirst].
  assert (edit_phone_loop (<[i := mkPhone new]> (phones self)) new old
          = Some (phones self)) as E2.
  { apply edit_phone_loop_Some. exists i. split.
    - split.
      + exists (mkPhone new). split; [|done].
        apply list_lookup_insert_eq. by eapply lookup_lt_Some.
      + intros j q Hj Hq. rewrite list_lookup_insert_ne in Hq by lia.
        rewrite Forall_forall in Hnew. apply Hnew. by eapply list_elem_of_lookup_2.
    - rewrite list_insert_insert_eq. symmetry. apply list_insert_id.
      by rewrite <- Hv, Phone_eta. }
  unfold edit_phone at 2. rewrite E1. simpl.
  unfold edit_phone. simpl. rewrite E2. by destruct self.
Qed.

Lemma edit_phone_and_back_witness :
  edit_phone "0987654321" "1234567890"
    (edit_phone "1234567890" "0987654321" sample_record).2
  = (Return tt, sample_record).
Proof.
  apply (edit_phone_and_back "1234567890" "0987654321" sample_record).
  - constructor. reflexivity.
  - repeat constructor; discriminate.
Defined.

(** ** Building a record *)



(** ** The dict of the book *)

Section DictFacts.
Implicit Types (d : pydict Record_) (k : string) (v : Record_).

Lemma dict_contains_setitem k k' v d :
  dict_contains k' (dict_setitem k v d) = String.eqb k' k || dict_contains k' d.
Proof.
  induction d as [|[k0 v0] d IH]; simpl; [by rewrite orb_false_r|].
  destruct (String.eqb_spec k k0) as [->|Hne]; simpl.
  - by destruct (String.eqb k' k0).
  - rewrite IH. destruct (String.eqb k' k0), (String.eqb k' k); done.
Qed.

Lemma dict_getitem_setitem_eq k v d : dict_getitem k (dict_setitem k v d) = Return v.
Proof.
  induction d as [|[k0 v0] d IH]; simpl; [by rewrite String.eqb_refl|].
  destruct (String.eqb_spec k k0) as [->|Hne]; simpl.
  - by rewrite String.eqb_refl.
  - by destruct (String.eqb_spec k k0).
Qed.

Lemma dict_getitem_setitem_ne k k' v d :
  k' <> k -> dict_getitem k' (dict_setitem k v d) = dict_getitem k' d.
Proof.
  intros Hne. induction d as [|[k0 v0] d IH]; simpl.
  - by destruct (String.eqb_spec k' k).
  - destruct (String.eqb_spec k k0) as [->|Hne0]; simpl.
    + by destruct (String.eqb_spec k' k0).
    + by rewrite IH.
Qed.

Lemma dict_contains_delitem_ne k k' d :
  k' <> k -> dict_contains k' (dict_delitem k d) = dict_contains k' d.
Proof.
  intros Hne. induction d as [|[k0 v0] d IH]; simpl; [done|].
  destruct (String.eqb_spec k k0) as [->|Hne0]; simpl.
  - by destruct (String.eqb_spec k' k0).
  - by rewrite IH.
Qed.

Lemma dict_getitem_delitem_ne k k' d :
  k' <> k -> dict_getitem k' (dict_delitem k d) = dict_getitem k' d.
Proof.
  intros Hne. induction d as [|[k0 v0] d IH]; simpl; [done|].
  destruct (String.eqb_spec k k0) as [->|Hne0]; simpl.
  - by destruct (String.eqb_spec k' k0).
  - by rewrite IH.
Qed.

Lemma dict_keys_delitem k d :
  NoDup (dict_keys d) ->
  NoDup (dict_keys (dict_delitem k d))
  /\ (forall k', k' ∈ dict_keys (dict_delitem k d) <-> k' ∈ dict_keys d /\ k' <> k).
Proof.
  induction d as [|[k0 v0] d IH]; simpl; intros Hnd.
  - split; [done|]. intros k'. split; [by intros ?%elem_of_nil|by intros [?%elem_of_nil _]].
  - apply NoDup_cons in Hnd as [Hk0 Hnd]. destruct (IH Hnd) as [IH1 IH2].
    destruct (String.eqb_spec k k0) as [->|Hne]; simpl.
    + split; [done|]. intros k'. rewrite elem_of_cons. split.
      * intros Hk'. split; [by right|]. by intros ->.
      * by intros [[->|?] ?].
    + split.
      * apply NoDup_cons. split; [|done]. intros Hin. by apply IH2 in Hin as [? _].
      * intros k'. rewrite !elem_of_cons, IH2. split.
        -- intros [->|[? ?]]; split; auto.
        -- intros [[->|?] ?]; auto.
Qed.

Lemma dict_delitem_Forall (P : string * Record_ -> Prop) k d :
  Forall P d -> Forall P (dict_delitem k d).
Proof.
  induction 1 as [|[k0 v0] d HP Hd IH]; simpl; [done|].
  destruct (String.eqb k k0); [done|by constructor].
Qed.

Lemma dict_setitem_Forall (P : string * Record_ -> Prop) k v d :
  P (k, v) -> Forall P d -> Forall P (dict_setitem k v d).
Proof.
  intros Hv. induction 1 as [|[k0 v0] d HP Hd IH]; simpl.
  - by repeat constructor.
  - destruct (String.eqb_spec k k0) as [<-|?]; by constructor.
Qed.

End DictFacts.

(** X7.  After [add_record], [find] under the name of the record returns
    that record, whatever the book held under the name before, and
    [find] under any other name returns what it returned before. *)
Theorem add_record_then_find (record : Record_) (self : AddressBook) (name_arg : string) :
  find (value (name record)) (add_record record self) = Return (Some record)
  /\ (name_arg <> value (name record)
      -> find name_arg (add_record record self) = find name_arg self).
Proof.
  unfold find, add_record. simpl. split.
  - by rewrite dict_contains_setitem, String.eqb_refl, dict_getitem_setitem_eq.
  - intros Hne. rewrite dict_contains_setitem, dict_getitem_setitem_ne by done.
    by destruct (String.eqb_spec name_arg (name_value (name record))).
Qed.

Lemma add_record_then_find_witness :
  find "Ann" (add_record sample_record sample_book) = Return (Some sample_record)
  /\ find "Bob" (add_record sample_record sample_book) = find "Bob" sample_book.
Proof.
  split.
  - apply (proj1 (add_record_then_find sample_record sample_book "Bob")).
  - apply (proj2 (add_record_then_find sample_record sample_book "Bob")). discriminate.
Defined.

(** X8.  [add_record] under a name the book has leaves the names and
    their order as they are: the record takes the place of the old one.
    Under a new name the record goes last. *)
Theorem add_record_keys (record : Record_) (self : AddressBook) :
  (value (name record) ∈ dict_keys (data self)
   -> dict_keys (data (add_record record self)) = dict_keys (data self))
  /\ (value (name record) ∉ dict_keys (data self)
      -> data (add_record record self)
         = data self ++ [(value (name record), record)]).
Proof.
  unfold add_record. simpl. split.
  - intros Hin. apply dict_contains_keys in Hin. by rewrite dict_setitem_keys, Hin.
  - intros Hnin. induction (data self) as [|[k0 v0] d IH]; simpl; [done|].
    simpl in Hnin. apply not_elem_of_cons in Hnin as [Hne Hnin].
    destruct (String.eqb_spec (name_value (name record)) k0) as [?|_]; [done|].
    by rewrite IH.
Qed.

Lemma add_record_keys_witness :
  dict_keys (data (add_record sample_record sample_book)) = dict_keys (data sample_book)
  /\ data (add_record sample_record AddressBook_init)
     = data AddressBook_init ++ [(value (name sample_record), sample_record)].
Proof.
  split.
  - apply (proj1 (add_record_keys sample_record sample_book)).
    apply (bool_decide_unpack _). vm_compute. exact I.
  - apply (proj2 (add_record_keys sample_record AddressBook_init)).
    apply not_elem_of_nil.
Defined.

(** X9.  In a book with distinct keys, after [delete] the name is not
    found; every other name is found as before; and deleting a name the
    book has not changes nothing. *)
Theorem delete_then_find (name_arg other : string) (self : AddressBook) :
  NoDup (dict_keys (data self)) ->
  find name_arg (delete name_arg self) = Return None
  /\ (other <> name_arg -> find other (delete name_arg self) = find other self)
  /\ (name_arg ∉ dict_keys (data self) -> delete name_arg self = self).
Proof.
  intros Hnd. unfold delete.
  destruct (dict_contains name_arg (data self)) eqn:E.
  - split; [|split].
    + unfold find. simpl.
      destruct (dict_contains name_arg (dict_delitem name_arg (data self))) eqn:E';
        [|done].
      apply dict_contains_keys in E'.
      by apply (dict_keys_delitem name_arg _ Hnd) in E' as [_ ?].
    + intros Hne. unfold find. simpl.
      by rewrite dict_contains_delitem_ne, dict_getitem_delitem_ne.
    + intros Hnin. apply dict_contains_keys in E. done.
  - split; [|done]. unfold find. by rewrite E.
Qed.

Lemma delete_then_find_witness :
  find "Bob" (delete "Bob" sample_book) = Return None
  /\ (find "Ann" (delete "Bob" sample_book) = find "Ann" sample_book)
  /\ (delete "Zoe" sample_book = sample_book).
Proof.
  assert (NoDup (dict_keys (data sample_book))) as Hnd.
  { apply (bool_decide_unpack _). vm_compute. exact I. }
  split; [|split].
  - apply (proj1 (delete_then_find "Bob" "Ann" sample_book Hnd)).
  - apply (proj1 (proj2 (delete_then_find "Bob" "Ann" sample_book Hnd))). discriminate.
  - apply (proj2 (proj2 (delete_then_find "Zoe" "Ann" sample_book Hnd))).
    apply (bool_decide_unpack _). vm_compute. exact I.
Defined.

(** X10.  The empty book has distinct keys and every record under its
    own name, and [add_record] and [delete] keep both. *)
Theorem book_ok_kept (record : Record_) (name_arg : string) (self : AddressBook) :
  book_ok AddressBook_init
  /\ (book_ok self -> book_ok (add_record record self))
  /\ (book_ok self -> book_ok (delete name_arg self)).
Proof.
  unfold book_ok. split; [split; constructor|]. split.
  - intros [Hnd Hall]. split; [by apply add_record_keys_unique|].
    unfold add_record. simpl. by apply dict_setitem_Forall.
  - intros [Hnd Hall]. unfold delete.
    destruct (dict_contains name_arg (data self)); [|done]. simpl. split.
    + by apply dict_keys_delitem.
    + by apply dict_delitem_Forall.
Qed.

Lemma book_ok_kept_witness :
  book_ok (add_record sample_record AddressBook_init)
  /\ book_ok (delete "Ann" (add_record sample_record AddressBook_init)).
Proof.
  assert (book_ok AddressBook_init) as H0
    by apply (proj1 (book_ok_kept sample_record "Ann" AddressBook_init)).
  assert (book_ok (add_record sample_record AddressBook_init)) as H1
    by apply (proj1 (proj2 (book_ok_kept sample_record "Ann" AddressBook_init)) H0).
  split; [exact H1|].
  apply (proj2 (proj2 (book_ok_kept sample_record "Ann"
                         (add_record sample_record AddressBook_init))) H1).
Defined.

(** ** [iterate] with a page size that is not positive *)

Lemma iterate_next_nonpositive (self : AddressBook) (n r : Z) :
  (n <= 0)%Z -> (r <= 0)%Z -> data self <> [] ->
  iterate_next self n
    (mkFrame (dict_keys (data self)) r (Z.of_nat (length (dict_keys (data self)))))
  = Return (Some ([], mkFrame (dict_keys (data self)) (r + n)
                              (Z.of_nat (length (dict_keys (data self)))))).
Proof.
  intros Hn Hr Hd.
  assert (0 < Z.of_nat (length (dict_keys (data self))))%Z as Hlen.
  { unfold dict_keys. rewrite length_fmap. destruct (data self); [done|simpl; lia]. }
  unfold iterate_next. cbn [records all_records keys].
  destruct (Z.ltb_spec r (Z.of_nat (length (dict_keys (data self))))) as [_|?]; [|lia].
  unfold py_range. by rewrite seqZ_nil by lia.
Qed.

Lemma iterate_run_nonpositive (self : AddressBook) (n r : Z) (fuel : nat) :
  (n <= 0)%Z -> (r <= 0)%Z -> data self <> [] ->
  iterate_run fuel self n
    (mkFrame (dict_keys (data self)) r (Z.of_nat (length (dict_keys (data self)))))
  = None.
Proof.
  intros Hn Hr Hd. revert r Hr. induction fuel as [|fuel IH]; intros r Hr; [done|].
  cbn [iterate_run]. rewrite iterate_next_nonpositive by done.
  by rewrite IH by lia.
Qed.

(** X11.  On a book that has a record, [iterate] with a page size of zero
    or less never ends: every turn of its loop yields an empty page and
    leaves the loop condition true, so no number of turns exhausts the
    generator.  On an empty book it ends at once, whatever the size. *)
Theorem iterate_nonpositive_diverges (self : AddressBook) (n : Z) (fuel : nat) :
  (data self <> [] -> (n <= 0)%Z ->
   iterate fuel self n = None
   /\ iterate_next self n (iterate_enter self)
      = Return (Some ([], mkFrame (dict_keys (data self)) n
                                  (Z.of_nat (length (dict_keys (data self)))))))
  /\ (data self = [] -> iterate (S fuel) self n = Some (Return [])).
Proof.
  split.
  - intros Hd Hn. unfold iterate, iterate_enter. split.
    + by apply iterate_run_nonpositive.
    + by rewrite iterate_next_nonpositive.
  - intros Hd. unfold iterate, iterate_enter. by rewrite Hd.
Qed.

Lemma iterate_nonpositive_diverges_witness :
  (iterate 100 sample_book (-2) = None
   /\ iterate_next sample_book (-2) (iterate_enter sample_book)
      = Return (Some ([], mkFrame (dict_keys (data sample_book)) (-2)
                          (Z.of_nat (length (dict_keys (data sample_book)))))))
  /\ iterate 1 AddressBook_init (-2) = Some (Return []).
Proof.
  split.
  - apply (proj1 (iterate_nonpositive_diverges sample_book (-2) 100)).
    + discriminate.
    + lia.
  - apply (proj2 (iterate_nonpositive_diverges AddressBook_init (-2) 0)). reflexivity.
Defined.

(** ** More on [days_to_birthday] *)

Section DaysBounds.
Import Datetime.
Local Open Scope Z_scope.

Lemma _ymd2ord_earlier y m d m' d' :
  date_fields_ok y m d = true -> date_fields_ok y m' d' = true ->
  earlier_in_year m d m' d' = true ->
  _ymd2ord y m d < _ymd2ord y m' d'.
Proof.
  intros H H' Hlt. apply date_fields_ok_bounds in H as (_ & Hm & Hd).
  apply date_fields_ok_bounds in H' as (_ & Hm' & Hd').
  unfold _ymd2ord, earlier_in_year in *.
  destruct (Z.ltb_spec m m') as [?|?].
  - pose proof (_days_before_month_lt y m m'). lia.
  - simpl in Hlt. destruct (Z.eqb_spec m m') as [->|?]; simpl in Hlt; [lia|done].
Qed.

Lemma _ymd2ord_year_step y m d :
  1 <= m <= 12 -> _ymd2ord (y + 1) m d - _ymd2ord y m d <= 366.
Proof.
  intros Hm. unfold _ymd2ord, _days_before_month. rewrite _days_before_year_succ.
  destruct (_is_leap y), (_is_leap (y + 1)), (2 <? m) eqn:E; simpl; try lia.
Qed.

Lemma _is_leap_next y : _is_leap y = true -> _is_leap (y + 1) = false.
Proof.
  unfold _is_leap. intros H. apply andb_prop in H as [H _].
  apply Z.eqb_eq in H.
  destruct (Z.eqb_spec ((y + 1) mod 4) 0) as [H'|?]; [|done].
  exfalso. Z.div_mod_to_equations. lia.
Qed.

Lemma days_to_birthday_bounds now self b t :
  birthday self = Some b -> value b = VDatetime t ->
  date_fields_ok (year now) (month now) (day now) = true ->
  date_fields_ok (year now) (month t) (day t) = true ->
  (earlier_in_year (month t) (day t) (month now) (day now) = true ->
   date_fields_ok (year now + 1) (month t) (day t) = true) ->
  exists days,
    days_to_birthday now self = Return (Days days)
    /\ 0 <= days <= 365
    /\ (days = 0 <-> month t = month now /\ day t = day now).
Proof.
  intros Hb Hv Hnow Hthis Hnext. eexists. split.
  { by apply (days_to_birthday_datetime now self b t). }
  pose proof (date_fields_ok_bounds _ _ _ Hthis) as (Hy & Hm & Hd).
  pose proof (date_fields_ok_bounds _ _ _ Hnow) as (_ & Hmn & Hdn).
  destruct (earlier_in_year (month t) (day t) (month now) (day now)) eqn:E.
  - pose proof (_ymd2ord_earlier _ _ _ _ _ Hthis Hnow E).
    pose proof (_ymd2ord_year_step (year now) (month t) (day t) Hm).
    pose proof (_ymd2ord_next_year _ _ _ _ _ (Hnext eq_refl) Hnow).
    split; [lia|]. split; [lia|].
    intros [Hmm Hdd]. unfold earlier_in_year in E. lia.
  - pose proof (_ymd2ord_same_year _ _ _ _ _ Hthis Hnow E) as Hle.
    split.
    + split; [lia|]. unfold _ymd2ord in *.
      pose proof (_days_before_month_end (year now) (month t) Hm).
      pose proof (_days_before_month_end (year now) (month now) Hmn).
      destruct (_is_leap (year now)); lia.
    + split.
      * intros H0.
        destruct (earlier_in_year (month now) (day now) (month t) (day t)) eqn:E'.
        -- pose proof (_ymd2ord_earlier _ _ _ _ _ Hnow Hthis E'). lia.
        -- unfold earlier_in_year in *. lia.
      * intros [-> ->]. lia.
Qed.

Lemma datetime_init_feb29 y :
  1 <= y <= 9999 ->
  datetime_init y 2 29
  = if _is_leap y then Return (mkDatetime y 2 29 0 0 0 0)
    else Raise (ValueError "day is out of range for month").
Proof.
  intros Hy. unfold datetime_init, MINYEAR, MAXYEAR, _days_in_month.
  replace ((1 <=? y) && (y <=? 9999)) with true by lia.
  by destruct (_is_leap y).
Qed.

Lemma days_to_birthday_feb29 now self b t :
  birthday self = Some b -> value b = VDatetime t ->
  month t = 2 -> day t = 29 ->
  date_fields_ok (year now) (month now) (day now) = true ->
  year now < 9999 ->
  _is_leap (year now) = false \/ 2 < month now ->
  days_to_birthday now self = Raise (ValueError "day is out of range for month").
Proof.
  intros Hb Hv Hm Hd Hnow Hy Hcase. unfold days_to_birthday. rewrite Hb.
  rewrite (datetime_init_ok _ _ _ Hnow). simpl. simpl in Hv. rewrite Hv. simpl.
  pose proof (date_fields_ok_bounds _ _ _ Hnow) as (Hyn & Hmn & Hdn).
  rewrite !py_int_pad2 by lia. simpl. rewrite Hm, Hd.
  rewrite !datetime_init_feb29 by lia.
  destruct (_is_leap (year now)) eqn:El; [|done].
  destruct Hcase as [?|Hlate]; [done|]. simpl.
  rewrite lt_midnight, Z.ltb_irrefl, Z.eqb_refl. simpl.
  replace (2 <? month now) with true by lia. simpl.
  by rewrite (_is_leap_next _ El).
Qed.

End DaysBounds.

(** X12.  For a record whose birthday holds a date, and whenever the
    dates the code builds exist, the number [days_to_birthday] returns
    lies between 0 and 365, and it is 0 exactly on the birthday. *)
Theorem days_to_birthday_within_year
    (now : Datetime.datetime) (self : Record_) (b : Birthday) (t : Datetime.datetime) :
  birthday self = Some b -> value b = VDatetime t ->
  Datetime.date_fields_ok (Datetime.year now) (Datetime.month now) (Datetime.day now) = true ->
  Datetime.date_fields_ok (Datetime.year now) (Datetime.month t) (Datetime.day t) = true ->
  (earlier_in_year (Datetime.month t) (Datetime.day t)
     (Datetime.month now) (Datetime.day now) = true ->
   Datetime.date_fields_ok (Datetime.year now + 1) (Datetime.month t) (Datetime.day t) = true) ->
  exists days,
    days_to_birthday now self = Return (Days days)
    /\ (0 <= days <= 365)%Z
    /\ (days = 0%Z <-> Datetime.month t = Datetime.month now
                       /\ Datetime.day t = Datetime.day now).
Proof. apply days_to_birthday_bounds. Qed.

Lemma days_to_birthday_within_year_witness :
  exists days,
    days_to_birthday jan10_2024
      (born (VDatetime (Datetime.mkDatetime 1990 1 10 0 0 0 0))) = Return (Days days)
    /\ (0 <= days <= 365)%Z
    /\ (days = 0%Z <-> 1%Z = 1%Z /\ 10%Z = 10%Z).
Proof.
  apply (days_to_birthday_within_year jan10_2024
           (born (VDatetime (Datetime.mkDatetime 1990 1 10 0 0 0 0)))
           (mkBirthday (VDatetime (Datetime.mkDatetime 1990 1 10 0 0 0 0)))
           (Datetime.mkDatetime 1990 1 10 0 0 0 0)).
  - reflexivity.
  - reflexivity.
  - reflexivity.
  - reflexivity.
  - intros H. discriminate H.
Defined.

(** X13.  For a birthday on 29 February held as a date, [days_to_birthday]
    raises [ValueError] ("day is out of range for month") in every year
    that is not a leap year, and in a leap year from March on: the code
    builds 29 February of a year that has none. *)
Theorem days_to_birthday_feb29_raises
    (now : Datetime.datetime) (self : Record_) (b : Birthday) (t : Datetime.datetime) :
  birthday self = Some b -> value b = VDatetime t ->
  Datetime.month t = 2%Z -> Datetime.day t = 29%Z ->
  Datetime.date_fields_ok (Datetime.year now) (Datetime.month now) (Datetime.day now) = true ->
  (Datetime.year now < 9999)%Z ->
  Datetime._is_leap (Datetime.year now) = false \/ (2 < Datetime.month now)%Z ->
  days_to_birthday now self = Raise (ValueError "day is out of range for month").
Proof. apply days_to_birthday_feb29. Qed.

Lemma days_to_birthday_feb29_raises_witness :
  days_to_birthday jun1_2023 (born (VDatetime (Datetime.mkDatetime 1992 2 29 0 0 0 0)))
  = Raise (ValueError "day is out of range for month")
  /\ days_to_birthday mar1_2024 (born (VDatetime (Datetime.mkDatetime 1992 2 29 0 0 0 0)))
     = Raise (ValueError "day is out of range for month").
Proof.
  split.
  - apply (days_to_birthday_feb29_raises jun1_2023 _
             (mkBirthday (VDatetime (Datetime.mkDatetime 1992 2 29 0 0 0 0)))
             (Datetime.mkDatetime 1992 2 29 0 0 0 0)); try reflexivity.
    left. reflexivity.
  - apply (days_to_birthday_feb29_raises mar1_2024 _
             (mkBirthday (VDatetime (Datetime.mkDatetime 1992 2 29 0 0 0 0)))
             (Datetime.mkDatetime 1992 2 29 0 0 0 0)); try reflexivity.
    right. reflexivity.
Defined.

(** ** [search] *)

Section Search.

Lemma append_cons c (a b : string) : (String c a ++ b)%string = String c (a ++ b)%string.
Proof. reflexivity. Qed.

Lemma append_nil (b : string) : (EmptyString ++ b)%string = b.
Proof. reflexivity. Qed.

Lemma append_assoc (a b c : string) : ((a ++ b) ++ c)%string = (a ++ b ++ c)%string.
Proof.
  induction a as [|x a IH]; [done|]. rewrite !append_cons. by rewrite IH.
Qed.

Lemma str_startswith_spec q s :
  str_startswith q s = true <-> exists b, s = (q ++ b)%string.
Proof.
  revert s. induction q as [|a q IH]; intros s; simpl.
  - split; [|done]. intros _. by exists s.
  - destruct s as [|c s].
    + split; [done|]. by intros [b Hb].
    + rewrite andb_true_iff, IH. split.
      * intros [->%Ascii.eqb_eq [b ->]]. by exists b.
      * intros [b Hb]. rewrite append_cons in Hb. injection Hb as -> ->.
        split; [apply Ascii.eqb_refl|by exists b].
Qed.

Lemma str_contains_spec q s : str_contains q s = true <-> substring q s.
Proof.
  unfold substring. induction s as [|c s IH].
  - simpl. rewrite orb_false_r, str_startswith_spec. split.
    + intros [b Hb]. by exists EmptyString, b.
    + intros ([|a0 a] & b & H); [by exists b|]. by rewrite append_cons in H.
  - cbn [str_contains]. rewrite orb_true_iff, str_startswith_spec, IH. split.
    + intros [[b Hb]|(a & b & ->)].
      * by exists EmptyString, b.
      * by exists (String c a), b.
    + intros ([|a0 a] & b & H).
      * left. by exists b.
      * right. rewrite append_cons in H. injection H as -> ->. by exists a, b.
Qed.

Lemma str_contains_empty s : str_contains EmptyString s = true.
Proof. by destruct s. Qed.

Lemma matchesb_spec q r : matchesb q r = true <-> record_matches q r.
Proof.
  unfold matchesb, record_matches.
  rewrite orb_true_iff, existsb_exists, str_contains_spec.
  split; intros [?|(p & Hp & Hq)]; auto; right; exists p.
  - by rewrite list_elem_of_In, <- str_contains_spec.
  - by rewrite <- list_elem_of_In, str_contains_spec.
Qed.

Lemma search_filter q self :
  search q self = List.filter (matchesb q) (dict_values (data self)).
Proof.
  unfold search. fold (matchesb q).
  assert (forall l acc,
            foldl (fun found r => if matchesb q r then found ++ [r] else found) acc l
            = acc ++ List.filter (matchesb q) l) as H.
  { induction l as [|r l IH]; intros acc; simpl; [by rewrite app_nil_r|].
    rewrite IH. destruct (matchesb q r); [|done]. by rewrite <- app_assoc. }
  apply H.
Qed.

Lemma filter_sublist {A} (f : A -> bool) (l : list A) : sublist (List.filter f l) l.
Proof.
  induction l as [|x l IH]; simpl; [constructor|].
  destruct (f x); by constructor.
Qed.

End Search.

(** X14.  [search] returns exactly the records of the book that have the
    query as a part of their name or of one of their phones, upper and
    lower case told apart, in the order of the book; the empty query
    returns every record. *)
Theorem search_finds_substrings (query : string) (self : AddressBook) :
  (forall r, r ∈ search query self
             <-> r ∈ dict_values (data self) /\ record_matches query r)
  /\ sublist (search query self) (dict_values (data self))
  /\ search EmptyString self = dict_values (data self).
Proof.
  split; [|split].
  - intros r. rewrite search_filter, list_elem_of_In, filter_In.
    by rewrite <- list_elem_of_In, matchesb_spec.
  - rewrite search_filter. apply filter_sublist.
  - rewrite search_filter. induction (dict_values (data self)) as [|r l IH]; [done|].
    simpl. unfold matchesb at 1. rewrite str_contains_empty. simpl. by rewrite IH.
Qed.

(** ** [__str__] *)

Lemma str_join_snoc sep (l : list string) (x : string) :
  str_join sep (l ++ [x])
  = match l with
    | [] => x
    | _ :: _ => (str_join sep l ++ sep ++ x)%string
    end.
Proof.
  induction l as [|y l IH]; [done|].
  destruct l as [|z l]; [done|].
  change (str_join sep ((y :: z :: l) ++ [x]))
    with (y ++ sep ++ str_join sep ((z :: l) ++ [x]))%string.
  rewrite IH.
  change (str_join sep (y :: z :: l)) with (y ++ sep ++ str_join sep (z :: l))%string.
  by rewrite !append_assoc.
Qed.

(** X15.  The text of a record is "Contact name: ", the name, ", phones: "
    and the phones in their order with "; " between them.  After a
    successful [add_phone] it is the text from before with the new
    number at its end, after "; " unless it is the first phone. *)
Theorem Record_str_add_phone (phone_number : string) (self : Record_) :
  validate_phone_format phone_number = Return tt ->
  Record_str (add_phone phone_number self).2
  = match phones self with
    | [] => (Record_str self ++ phone_number)%string
    | _ :: _ => (Record_str self ++ "; " ++ phone_number)%string
    end.
Proof.
  intros H. rewrite (add_phone_valid _ _ H). unfold Record_str. simpl.
  rewrite map_app. simpl. rewrite str_join_snoc.
  destruct (phones self) as [|p ps]; simpl map; cbv iota.
  - by rewrite !append_assoc.
  - by rewrite !append_assoc.
Qed.

Lemma Record_str_add_phone_witness :
  Record_str (add_phone "0987654321" sample_record).2
  = (Record_str sample_record ++ "; " ++ "0987654321")%string.
Proof.
  apply (Record_str_add_phone "0987654321" sample_record). reflexivity.
Defined.

Example Record_str_sample :
  Record_str sample_record
  = "Contact name: Ann, phones: 1234567890; 5550001111; 1234567890"%string.
Proof. reflexivity. Qed.

(* ================================================================= *)
(** * Properties of the commands *)

Section CommandFacts.
Variable pickle_dumps : pydict Record_ -> list Byte.byte.
Variable os : filesystem -> string -> os_write.
Implicit Types (w : world) (args : list string).

Lemma char_isdigit_isnumeric c : PyStr.char_isdigit c = true -> char_isnumeric c = true.
Proof. unfold char_isnumeric. by intros ->. Qed.

Lemma validate_phone_format_isnumeric phone :
  validate_phone_format phone = Return tt -> str_isnumeric phone = true.
Proof.
  intros [Hlen Hd]%validate_phone_format_Return. unfold str_isnumeric.
  destruct phone as [|c phone]; [done|]. simpl PyStr.truthy. rewrite andb_true_l.
  apply all_chars_true. intros c' Hc'. apply char_isdigit_isnumeric.
  by eapply all_chars_true in Hd.
Qed.

Lemma str_isalpha_truthy s : str_isalpha s = true -> PyStr.truthy s = true.
Proof. unfold str_isalpha. by intros [? _]%andb_prop. Qed.

Lemma add_contact_refused name_arg phone w :
  str_isalpha name_arg && str_isnumeric phone = false ->
  add_contact [name_arg; phone] w = (Says "", w).
Proof.
  intros H. unfold add_contact, errors_commands, call2, add_contact_try.
  rewrite <- negb_andb, H. done.
Qed.

Lemma add_contact_bad_phone name_arg phone w :
  str_isalpha name_arg && str_isnumeric phone = true ->
  validate_phone_format phone <> Return tt ->
  add_contact [name_arg; phone] w
  = (Says "Phone number should be a 10-digit number", w).
Proof.
  intros H Hv. unfold add_contact, errors_commands, call2, add_contact_try.
  rewrite <- negb_andb, H. simpl negb. cbv iota.
  apply andb_prop in H as [Ha _]. apply str_isalpha_truthy in Ha.
  unfold Record_init, Name_init. rewrite Ha. simpl.
  unfold add_phone, Phone_init.
  by destruct (validate_phone_format_cases phone) as [E|E]; rewrite E in *.
Qed.

Lemma add_contact_added name_arg phone w :
  str_isalpha name_arg = true -> validate_phone_format phone = Return tt ->
  add_contact [name_arg; phone] w
  = (Says ("Contact " ++ name_arg ++ " added.")%string,
     mkWorld (add_record (mkRecord (mkName name_arg) [mkPhone phone] None)
                (_address_book w))
             (files w)).
Proof.
  intros Ha Hv. unfold add_contact, errors_commands, call2, add_contact_try.
  rewrite Ha, (validate_phone_format_isnumeric _ Hv). simpl negb. cbv iota.
  apply str_isalpha_truthy in Ha.
  unfold Record_init, Name_init. rewrite Ha. simpl.
  unfold add_phone, Phone_init. by rewrite Hv.
Qed.

(** The text of [str(KeyError("Contact not found."))]. *)
Lemma KeyError_text :
  exn_str (KeyError "Contact not found.") = Some "'Contact not found.'"%string.
Proof. reflexivity. Qed.

Lemma find_outcome name_arg (book : AddressBook) :
  exists o, find name_arg book = Return o.
Proof. rewrite find_Return. eauto. Qed.

Lemma edit_phone_first (p : Phone) ps phone (r : Record_) :
  phones r = p :: ps ->
  edit_phone (value p) phone r = (Return tt, with_phones (mkPhone phone :: ps) r).
Proof.
  intros Hp. unfold edit_phone. rewrite Hp. simpl.
  by rewrite String.eqb_refl.
Qed.

Lemma change_phone_missing name_arg phone w :
  find name_arg (_address_book w) = Return None ->
  change_phone pickle_dumps os [name_arg; phone] w = (Says "'Contact not found.'", w).
Proof.
  intros H. unfold change_phone, errors_commands, call2, change_phone_try.
  by rewrite H.
Qed.

Lemma change_phone_not_numeric name_arg phone w r :
  find name_arg (_address_book w) = Return (Some r) ->
  str_isnumeric phone = false ->
  change_phone pickle_dumps os [name_arg; phone] w = (Says "Invalid phone number.", w).
Proof.
  intros H Hn. unfold change_phone, errors_commands, call2, change_phone_try.
  by rewrite H, Hn.
Qed.

Lemma change_phone_no_phones name_arg phone w r :
  find name_arg (_address_book w) = Return (Some r) ->
  str_isnumeric phone = true -> phones r = [] ->
  change_phone pickle_dumps os [name_arg; phone] w = (Says "list index out of range", w).
Proof.
  intros H Hn Hp. unfold change_phone, errors_commands, call2, change_phone_try.
  by rewrite H, Hn, Hp.
Qed.

(** After the edit, the answer is as the write goes. *)
Lemma change_phone_edited name_arg phone w r p ps :
  find name_arg (_address_book w) = Return (Some r) ->
  str_isnumeric phone = true -> phones r = p :: ps ->
  change_phone pickle_dumps os [name_arg; phone] w
  = let book := mkAddressBook
                  (dict_setitem name_arg (with_phones (mkPhone phone :: ps) r)
                     (data (_address_book w))) in
    match os (files w) "my_address_book" with
    | Written =>
        (Says ("Phone " ++ name_arg ++ " changed.")%string,
         mkWorld book (<["my_address_book"%string := pickle_dumps (data book)]> (files w)))
    | OpenRaises errno strerror =>
        (Says ("[Errno " ++ PyStr.of_int errno ++ "] " ++ strerror
               ++ ": 'my_address_book'")%string,
         mkWorld book (files w))
    | WriteRaises errno strerror kept =>
        (Says ("[Errno " ++ PyStr.of_int errno ++ "] " ++ strerror)%string,
         mkWorld book
           (<["my_address_book"%string := take kept (pickle_dumps (data book))]>
              (files w)))
    end.
Proof.
  intros H Hn Hp. unfold change_phone, errors_commands, call2, change_phone_try.
  rewrite H, Hn, Hp. simpl negb. cbv iota.
  change (list_getitem (p :: ps) 0) with (Return p : outcome Phone). cbv iota beta.
  rewrite (edit_phone_first p ps phone r Hp). unfold write_to_file_os.
  cbn [_address_book files]. by destruct (os (files w) "my_address_book").
Qed.

Lemma change_phone_changed name_arg phone w r p ps :
  find name_arg (_address_book w) = Return (Some r) ->
  str_isnumeric phone = true -> phones r = p :: ps ->
  os (files w) "my_address_book" = Written ->
  change_phone pickle_dumps os [name_arg; phone] w
  = (Says ("Phone " ++ name_arg ++ " changed.")%string,
     let book := mkAddressBook
                   (dict_setitem name_arg (with_phones (mkPhone phone :: ps) r)
                      (data (_address_book w))) in
     mkWorld book (<["my_address_book"%string := pickle_dumps (data book)]> (files w))).
Proof.
  intros H Hn Hp Hos. rewrite (change_phone_edited _ _ _ _ _ _ H Hn Hp).
  by rewrite Hos.
Qed.

(** The answer "Phone ... changed." is given only after the write. *)
Lemma change_phone_says_changed name_arg phone w w' r p ps :
  find name_arg (_address_book w) = Return (Some r) ->
  str_isnumeric phone = true -> phones r = p :: ps ->
  change_phone pickle_dumps os [name_arg; phone] w
  = (Says ("Phone " ++ name_arg ++ " changed.")%string, w') ->
  os (files w) "my_address_book" = Written.
Proof.
  intros H Hn Hp Hc. rewrite (change_phone_edited _ _ _ _ _ _ H Hn Hp) in Hc.
  cbv zeta in Hc.
  destruct (os (files w) "my_address_book") as [|errno strerror|errno strerror kept];
    [done|discriminate Hc|discriminate Hc].
Qed.

Lemma show_phone_missing name_arg w :
  find name_arg (_address_book w) = Return None ->
  show_phone [name_arg] w = (Says "'Contact not found.'", w).
Proof.
  intros H. unfold show_phone, errors_commands, call1, show_phone_try. by rewrite H.
Qed.

Lemma show_phone_no_phones name_arg w r :
  find name_arg (_address_book w) = Return (Some r) -> phones r = [] ->
  show_phone [name_arg] w = (Says "list index out of range", w).
Proof.
  intros H Hp. unfold show_phone, errors_commands, call1, show_phone_try.
  by rewrite H, Hp.
Qed.

Lemma show_phone_first name_arg w r p ps :
  find name_arg (_address_book w) = Return (Some r) -> phones r = p :: ps ->
  show_phone [name_arg] w
  = (Says ("The phone " ++ name_arg ++ " is " ++ value p)%string, w).
Proof.
  intros H Hp. unfold show_phone, errors_commands, call1, show_phone_try.
  by rewrite H, Hp.
Qed.

End CommandFacts.

(** X16.  [add_contact] answers the empty text and changes nothing when
    the name is not all letters or the number not all numeric; it
    answers "Phone number should be a 10-digit number" and changes
    nothing when the number then fails the phone check; otherwise it
    answers "Contact ... added." and puts in the book, under the name, a
    record with that one phone and no birthday, in the place of any
    record the name had.  It writes no file. *)
Theorem add_contact_cases (name_arg phone : string) (w : world) :
  (str_isalpha name_arg && str_isnumeric phone = false
   -> add_contact [name_arg; phone] w = (Says "", w))
  /\ (str_isalpha name_arg && str_isnumeric phone = true
      -> validate_phone_format phone <> Return tt
      -> add_contact [name_arg; phone] w
         = (Says "Phone number should be a 10-digit number", w))
  /\ (str_isalpha name_arg = true -> validate_phone_format phone = Return tt
      -> add_contact [name_arg; phone] w
         = (Says ("Contact " ++ name_arg ++ " added.")%string,
            mkWorld (add_record (mkRecord (mkName name_arg) [mkPhone phone] None)
                       (_address_book w))
                    (files w))
         /\ find name_arg (add_record (mkRecord (mkName name_arg) [mkPhone phone] None)
                             (_address_book w))
            = Return (Some (mkRecord (mkName name_arg) [mkPhone phone] None))).
Proof.
  split; [apply add_contact_refused|]. split; [apply add_contact_bad_phone|].
  intros Ha Hv. split; [by apply add_contact_added|].
  unfold find, add_record. simpl.
  by rewrite dict_contains_setitem, String.eqb_refl, dict_getitem_setitem_eq.
Qed.

Lemma add_contact_cases_witness :
  add_contact ["Ann1"; "1234567890"]%string sample_world = (Says "", sample_world)
  /\ add_contact ["Ann"; "12345"]%string sample_world
     = (Says "Phone number should be a 10-digit number", sample_world)
  /\ (add_contact ["Ann"; "0987654321"]%string sample_world
      = (Says ("Contact " ++ "Ann" ++ " added.")%string,
         mkWorld (add_record (mkRecord (mkName "Ann") [mkPhone "0987654321"] None)
                    (_address_book sample_world))
                 (files sample_world))
      /\ find "Ann" (add_record (mkRecord (mkName "Ann") [mkPhone "0987654321"] None)
                       (_address_book sample_world))
         = Return (Some (mkRecord (mkName "Ann") [mkPhone "0987654321"] None))).
Proof.
  split; [|split].
  - apply (proj1 (add_contact_cases "Ann1" "1234567890" sample_world)). reflexivity.
  - apply (proj1 (proj2 (add_contact_cases "Ann" "12345" sample_world))).
    + reflexivity.
    + discriminate.
  - apply (proj2 (proj2 (add_contact_cases "Ann" "0987654321" sample_world)));
      reflexivity.
Defined.

(** X17.  [change_phone] answers "'Contact not found.'", quotes included,
    for a name the book has not; "Invalid phone number." for a number
    that is not all numeric; "list index out of range" for a contact
    without phone; and in these cases changes nothing.  Otherwise the
    first phone of the contact holds the new number, unchecked, and the
    other phones and contacts are as before, however the write goes:
    when the file is written, the answer is "Phone ... changed." and
    my_address_book holds the dump of the new book; when the file cannot
    be opened, the answer is the text of the [OSError] and no file has
    changed; when writing fails, the answer is the text of the
    [OSError] and the file holds what was written of the dump. *)
Theorem change_phone_cases
    (pickle_dumps : pydict Record_ -> list Byte.byte)
    (os : filesystem -> string -> os_write)
    (name_arg phone : string) (w : world) :
  (find name_arg (_address_book w) = Return None
   -> change_phone pickle_dumps os [name_arg; phone] w
      = (Says "'Contact not found.'", w))
  /\ (forall r, find name_arg (_address_book w) = Return (Some r)
      -> str_isnumeric phone = false
      -> change_phone pickle_dumps os [name_arg; phone] w
         = (Says "Invalid phone number.", w))
  /\ (forall r, find name_arg (_address_book w) = Return (Some r)
      -> str_isnumeric phone = true -> phones r = []
      -> change_phone pickle_dumps os [name_arg; phone] w
         = (Says "list index out of range", w))
  /\ (forall r p ps, find name_arg (_address_book w) = Return (Some r)
      -> str_isnumeric phone = true -> phones r = p :: ps
      -> exists book,
           find name_arg book = Return (Some (with_phones (mkPhone phone :: ps) r))
           /\ dict_keys (data book) = dict_keys (data (_address_book w))
           /\ (forall other, other <> name_arg
                             -> find other book = find other (_address_book w))
           /\ (os (files w) "my_address_book" = Written
               -> change_phone pickle_dumps os [name_arg; phone] w
                  = (Says ("Phone " ++ name_arg ++ " changed.")%string,
                     mkWorld book
                       (<["my_address_book"%string := pickle_dumps (data book)]>
                          (files w))))
           /\ (forall errno strerror,
                 os (files w) "my_address_book" = OpenRaises errno strerror
                 -> change_phone pickle_dumps os [name_arg; phone] w
                    = (Says ("[Errno " ++ PyStr.of_int errno ++ "] " ++ strerror
                             ++ ": 'my_address_book'")%string,
                       mkWorld book (files w)))
           /\ (forall errno strerror kept,
                 os (files w) "my_address_book" = WriteRaises errno strerror kept
                 -> change_phone pickle_dumps os [name_arg; phone] w
                    = (Says ("[Errno " ++ PyStr.of_int errno ++ "] "
                             ++ strerror)%string,
                       mkWorld book
                         (<["my_address_book"%string
                            := take kept (pickle_dumps (data book))]> (files w))))).
Proof.
  split; [apply change_phone_missing|]. split; [apply change_phone_not_numeric|].
  split; [apply change_phone_no_phones|].
  intros r p ps Hf Hn Hp.
  pose proof (change_phone_edited pickle_dumps os _ _ _ _ _ _ Hf Hn Hp) as E.
  cbv zeta in E.
  exists (mkAddressBook
            (dict_setitem name_arg (with_phones (mkPhone phone :: ps) r)
               (data (_address_book w)))).
  assert (dict_contains name_arg (data (_address_book w)) = true) as Hin.
  { unfold find in Hf. by destruct (dict_contains name_arg _). }
  split; [|split; [|split; [|split; [|split]]]].
  - unfold find. simpl.
    by rewrite dict_contains_setitem, String.eqb_refl, dict_getitem_setitem_eq.
  - simpl. by rewrite dict_setitem_keys, Hin.
  - intros other Hne. unfold find. simpl.
    rewrite dict_contains_setitem, dict_getitem_setitem_ne by done.
    by destruct (String.eqb_spec other name_arg).
  - intros Hos. by rewrite Hos in E.
  - intros errno strerror Hos. by rewrite Hos in E.
  - intros errno strerror kept Hos. by rewrite Hos in E.
Qed.

Lemma change_phone_cases_witness :
  change_phone RefCodec.dumps os_writes ["Zed"; "12"]%string sample_world
  = (Says "'Contact not found.'", sample_world)
  /\ exists book,
       find "Bob" book
       = Return (Some (with_phones (mkPhone "12" :: [])
                         (mkRecord (mkName "Bob") [mkPhone "0123456789"]
                            (Some (mkBirthday (VStr "17.03.1990"))))))
       /\ change_phone RefCodec.dumps os_read_only ["Bob"; "12"]%string sample_world
          = (Says ("[Errno " ++ PyStr.of_int 13 ++ "] " ++ "Permission denied"
                   ++ ": 'my_address_book'")%string,
             mkWorld book (files sample_world)).
Proof.
  split.
  - apply (proj1 (change_phone_cases RefCodec.dumps os_writes "Zed" "12" sample_world)).
    reflexivity.
  - destruct (proj2 (proj2 (proj2 (change_phone_cases RefCodec.dumps os_read_only
                                     "Bob" "12" sample_world)))
                _ (mkPhone "0123456789") [] eq_refl eq_refl eq_refl)
      as (book & Hfind & _ & _ & _ & Hopen & _).
    exists book. split; [exact Hfind|].
    apply (Hopen 13%Z "Permission denied"%string). reflexivity.
Defined.

(** X18.  [show_phone] answers "'Contact not found.'" for a name the book
    has not, "list index out of range" for a contact without phone, and
    otherwise "The phone ... is ..." with the first phone of the contact;
    it changes nothing. *)
Theorem show_phone_cases (name_arg : string) (w : world) :
  (find name_arg (_address_book w) = Return None
   -> show_phone [name_arg] w = (Says "'Contact not found.'", w))
  /\ (forall r, find name_arg (_address_book w) = Return (Some r) -> phones r = []
      -> show_phone [name_arg] w = (Says "list index out of range", w))
  /\ (forall r p ps, find name_arg (_address_book w) = Return (Some r)
      -> phones r = p :: ps
      -> show_phone [name_arg] w
         = (Says ("The phone " ++ name_arg ++ " is " ++ value p)%string, w)).
Proof.
  split; [apply show_phone_missing|]. split; [apply show_phone_no_phones|].
  apply show_phone_first.
Qed.

Lemma show_phone_cases_witness :
  show_phone ["Zed"]%string sample_world = (Says "'Contact not found.'", sample_world)
  /\ show_phone ["Ann"]%string sample_world
     = (Says ("The phone " ++ "Ann" ++ " is " ++ "1234567890")%string, sample_world).
Proof.
  split.
  - apply (proj1 (show_phone_cases "Zed" sample_world)). reflexivity.
  - apply (proj2 (proj2 (show_phone_cases "Ann" sample_world))
             sample_record (mkPhone "1234567890")
             [mkPhone "5550001111"; mkPhone "1234567890"]); reflexivity.
Defined.

Section ShowAll.

Lemma show_all_item_cases (k : string) (r : Record_) :
  show_all_item (k, r)
  = match phones r with
    | [] => Raise IndexError
    | p :: _ => Return (k ++ ": " ++ value p)%string
    end.
Proof. unfold show_all_item. simpl. by destruct (phones r). Qed.

Lemma show_all_lines (items : pydict Record_) :
  Forall (fun kv => phones (snd kv) <> []) items ->
  comprehension show_all_item items = Return (map contact_line items).
Proof.
  induction 1 as [|[k r] items Hr Hitems IH]; [done|].
  cbn [comprehension map]. rewrite show_all_item_cases, IH.
  unfold contact_line. simpl in *. by destruct (phones r).
Qed.

Lemma show_all_index_error (items : pydict Record_) :
  Exists (fun kv => phones (snd kv) = []) items ->
  comprehension show_all_item items = Raise IndexError.
Proof.
  induction items as [|[k r] items IH]; intros H; [by inversion H|].
  cbn [comprehension]. rewrite show_all_item_cases.
  destruct (phones r) as [|p ps] eqn:Hp; [done|].
  rewrite IH; [done|]. inversion H as [? ? H0|]; subst; [|done].
  simpl in H0. congruence.
Qed.

End ShowAll.

(** X19.  [show_all] answers "No contacts found." on an empty book; when
    every contact has a phone, one line "name: first phone" per contact
    in the order of the book, with newlines between them; and when some
    contact has no phone, only "list index out of range".  It changes
    nothing. *)
Theorem show_all_cases (w : world) :
  (data (_address_book w) = [] -> show_all [] w = (Says "No contacts found.", w))
  /\ (data (_address_book w) <> []
      -> Forall (fun kv => phones (snd kv) <> []) (data (_address_book w))
      -> show_all [] w
         = (Says (str_join (String newline EmptyString)
                    (map contact_line (data (_address_book w)))), w))
  /\ (Exists (fun kv => phones (snd kv) = []) (data (_address_book w))
      -> show_all [] w = (Says "list index out of range", w)).
Proof.
  unfold show_all, errors_commands, call0, show_all_try. split; [by intros ->|]. split.
  - intros Hne Hall. destruct (data (_address_book w)) as [|kv items] eqn:E; [done|].
    by rewrite (show_all_lines _ Hall).
  - intros Hex. destruct (data (_address_book w)) as [|kv items] eqn:E;
      [by inversion Hex|].
    by rewrite (show_all_index_error _ Hex).
Qed.

Lemma show_all_cases_witness :
  show_all [] (mkWorld AddressBook_init ∅)
  = (Says "No contacts found.", mkWorld AddressBook_init ∅)
  /\ show_all [] sample_world
     = (Says (str_join (String newline EmptyString)
                (map contact_line (data (_address_book sample_world)))), sample_world)
  /\ show_all [] (mkWorld sample_book ∅)
     = (Says "list index out of range", mkWorld sample_book ∅).
Proof.
  split; [|split].
  - apply (proj1 (show_all_cases (mkWorld AddressBook_init ∅))). reflexivity.
  - apply (proj1 (proj2 (show_all_cases sample_world))).
    + discriminate.
    + repeat constructor; discriminate.
  - apply (proj2 (proj2 (show_all_cases (mkWorld sample_book ∅)))).
    constructor. reflexivity.
Defined.

(** X20.  Called with a wrong number of arguments, each of the four
    decorated commands answers "Invalid number of arguments." and
    changes nothing. *)
Theorem wrong_number_of_arguments
    (pickle_dumps : pydict Record_ -> list Byte.byte)
    (os : filesystem -> string -> os_write) (args : list string) (w : world) :
  (length args <> 2%nat
   -> add_contact args w = (Says "Invalid number of arguments.", w)
      /\ change_phone pickle_dumps os args w = (Says "Invalid number of arguments.", w))
  /\ (length args <> 1%nat
      -> show_phone args w = (Says "Invalid number of arguments.", w))
  /\ (length args <> 0%nat
      -> show_all args w = (Says "Invalid number of arguments.", w)).
Proof.
  split; [|split]; intros H.
  - by destruct args as [|a [|b [|c args]]].
  - by destruct args as [|a [|b args]].
  - by destruct args as [|a args].
Qed.

Lemma wrong_number_of_arguments_witness :
  (add_contact ["Ann"]%string sample_world
   = (Says "Invalid number of arguments.", sample_world)
   /\ change_phone RefCodec.dumps os_writes ["Ann"]%string sample_world
      = (Says "Invalid number of arguments.", sample_world))
  /\ show_all ["Ann"]%string sample_world
     = (Says "Invalid number of arguments.", sample_world).
Proof.
  split.
  - apply (proj1 (wrong_number_of_arguments RefCodec.dumps os_writes ["Ann"]%string sample_world)).
    discriminate.
  - apply (proj2 (proj2 (wrong_number_of_arguments RefCodec.dumps os_writes ["Ann"]%string
                           sample_world))).
    discriminate.
Defined.

Section Dispatch.
Variable pickle_dumps : pydict Record_ -> list Byte.byte.
Variable os : filesystem -> string -> os_write.

Lemma list_getitem_head {A} (x : A) (l : list A) : list_getitem (x :: l) 0 = Return x.
Proof. by apply (list_getitem_nat (x :: l) 0 x). Qed.

(** A first word that is a key calls the command with the other words. *)
Lemma parser_command_key command func args w :
  dict_contains command (users_commands pickle_dumps os) = true ->
  dict_getitem command (users_commands pickle_dumps os) = Return func ->
  parser_command pickle_dumps os (command :: args) w = func args w.
Proof.
  intros Hc Hg. unfold parser_command. rewrite list_getitem_head, Hc, Hg.
  destruct args as [|a args]; [done|].
  replace (1 <? Z.of_nat (length (command :: a :: args)))%Z with true; [done|].
  symmetry. apply Z.ltb_lt. simpl length. lia.
Qed.

Lemma parser_command_unknown command args w :
  dict_contains command (users_commands pickle_dumps os) = false ->
  parser_command pickle_dumps os (command :: args) w
  = match args with
    | [second] =>
        if dict_contains (command ++ " " ++ second)%string (users_commands pickle_dumps os)
        then match dict_getitem (command ++ " " ++ second)%string
                     (users_commands pickle_dumps os) with
             | Return func => func [] w
             | Raise e => (Fails (Uncaught e), w)
             end
        else (Fails UnboundLocalError, w)
    | _ => (Says "Invalid command.", w)
    end.
Proof.
  intros Hc. unfold parser_command. rewrite list_getitem_head, Hc.
  destruct args as [|second [|third args]].
  - done.
  - change (list_getitem [command; second] 1) with (Return second : outcome string).
    simpl. by destruct (dict_contains _ _).
  - replace (Z.of_nat (length (command :: second :: third :: args)) =? 2)%Z
      with false; [done|]. symmetry. apply Z.eqb_neq. simpl length. lia.
Qed.

End Dispatch.

(** X21.  [parser_command] raises [IndexError] on no word at all.  A
    first word that is a key of the table calls its command with the
    other words: "hello", "close" and "exit" answer their text alone and
    raise [TypeError], uncaught, when words follow; "add", "change" and
    "phone" get the words that follow.  The two-word keys are reached by
    exactly two words, "show all" and "good bye".  Any other line
    answers "Invalid command.", except that two words that name no
    command raise [UnboundLocalError]. *)
Theorem parser_command_dispatch
    (pickle_dumps : pydict Record_ -> list Byte.byte)
    (os : filesystem -> string -> os_write)
    (command : string) (args : list string) (w : world) :
  parser_command pickle_dumps os [] w = (Fails (Uncaught IndexError), w)
  /\ (command = "hello"%string \/ command = "close"%string \/ command = "exit"%string
      -> parser_command pickle_dumps os [command] w
         = (Says (if String.eqb command "hello" then "How can I help you?"
                  else "Good bye!")%string, w)
         /\ (args <> [] -> parser_command pickle_dumps os (command :: args) w
                           = (Fails TypeError, w)))
  /\ parser_command pickle_dumps os ("add"%string :: args) w = add_contact args w
  /\ parser_command pickle_dumps os ("change"%string :: args) w
     = change_phone pickle_dumps os args w
  /\ parser_command pickle_dumps os ("phone"%string :: args) w = show_phone args w
  /\ parser_command pickle_dumps os ["show"; "all"]%string w = show_all [] w
  /\ parser_command pickle_dumps os ["good"; "bye"]%string w = (Says "Good bye!", w)
  /\ (dict_contains command (users_commands pickle_dumps os) = false
      -> (length args <> 1%nat
          -> parser_command pickle_dumps os (command :: args) w = (Says "Invalid command.", w))
         /\ (forall second,
               dict_contains (command ++ " " ++ second)%string
                 (users_commands pickle_dumps os) = false
               -> parser_command pickle_dumps os [command; second] w
                  = (Fails UnboundLocalError, w))).
Proof.
  split; [done|]. split.
  { intros [->|[->| ->]]; (split; [done|]); intros Hargs;
      rewrite (parser_command_key _ _ _ (call0 _)) by done;
      by destruct args. }
  split; [by apply parser_command_key|]. split; [by apply parser_command_key|].
  split; [by apply parser_command_key|]. split; [done|]. split; [done|].
  intros Hc. split.
  - intros Hlen. rewrite parser_command_unknown by done.
    by destruct args as [|a [|b args]].
  - intros second Hs. rewrite parser_command_unknown by done. by rewrite Hs.
Qed.

Lemma parser_command_dispatch_witness :
  (parser_command RefCodec.dumps os_writes ["hello"]%string sample_world
   = (Says (if String.eqb "hello" "hello" then "How can I help you?"
            else "Good bye!")%string, sample_world)
   /\ (["there"]%string <> []
       -> parser_command RefCodec.dumps os_writes ["hello"; "there"]%string sample_world
          = (Fails TypeError, sample_world)))
  /\ ((length ["a"; "b"]%string <> 1%nat
       -> parser_command RefCodec.dumps os_writes ["list"; "a"; "b"]%string sample_world
          = (Says "Invalid command.", sample_world))
      /\ (forall second,
            dict_contains ("list" ++ " " ++ second)%string
              (users_commands RefCodec.dumps os_writes) = false
            -> parser_command RefCodec.dumps os_writes ["list"; second]%string sample_world
               = (Fails UnboundLocalError, sample_world))).
Proof.
  split.
  - apply (proj1 (proj2 (parser_command_dispatch RefCodec.dumps os_writes "hello"
                           ["there"]%string sample_world))).
    left. reflexivity.
  - apply (proj2 (proj2 (proj2 (proj2 (proj2 (proj2 (proj2
             (parser_command_dispatch RefCodec.dumps os_writes "list" ["a"; "b"]%string
                sample_world)))))))).
    reflexivity.
Defined.

(** X22.  A contact added by the line "add name number" is shown by the
    line "phone name" afterwards, with that number. *)
Theorem add_then_phone
    (pickle_dumps : pydict Record_ -> list Byte.byte)
    (os : filesystem -> string -> os_write)
    (name_arg phone : string) (w : world) :
  str_isalpha name_arg = true -> validate_phone_format phone = Return tt ->
  exists w',
    parser_command pickle_dumps os ["add"%string; name_arg; phone] w
    = (Says ("Contact " ++ name_arg ++ " added.")%string, w')
    /\ parser_command pickle_dumps os ["phone"%string; name_arg] w'
       = (Says ("The phone " ++ name_arg ++ " is " ++ phone)%string, w').
Proof.
  intros Ha Hv. eexists. split.
  - rewrite (parser_command_key _ _ _ add_contact) by done.
    by apply add_contact_added.
  - rewrite (parser_command_key _ _ _ show_phone) by done.
    apply (show_phone_first name_arg _ (mkRecord (mkName name_arg) [mkPhone phone] None)
             (mkPhone phone) []); [|done].
    unfold find, add_record. simpl.
    by rewrite dict_contains_setitem, String.eqb_refl, dict_getitem_setitem_eq.
Qed.

Lemma add_then_phone_witness :
  exists w',
    parser_command RefCodec.dumps os_writes ["add"; "Zed"; "0987654321"]%string sample_world
    = (Says ("Contact " ++ "Zed" ++ " added.")%string, w')
    /\ parser_command RefCodec.dumps os_writes ["phone"; "Zed"]%string w'
       = (Says ("The phone " ++ "Zed" ++ " is " ++ "0987654321")%string, w').
Proof.
  apply (add_then_phone RefCodec.dumps os_writes "Zed" "0987654321" sample_world); reflexivity.
Defined.

(** X23.  What a successful [change_phone] wrote is what a later load
    reads: whenever [pickle] gives back the dict it dumped, loading
    my_address_book after the command returns the book in memory. *)
Theorem change_phone_then_load
    (pickle_dumps : pydict Record_ -> list Byte.byte)
    (os : filesystem -> string -> os_write)
    (pickle_loads : list Byte.byte -> outcome (pydict Record_))
    (name_arg phone : string) (w w' : world) (r : Record_) (p : Phone) (ps : list Phone) :
  find name_arg (_address_book w) = Return (Some r) ->
  str_isnumeric phone = true -> phones r = p :: ps ->
  change_phone pickle_dumps os [name_arg; phone] w
  = (Says ("Phone " ++ name_arg ++ " changed.")%string, w') ->
  pickle_loads (pickle_dumps (data (_address_book w'))) = Return (data (_address_book w')) ->
  read_contacts_from_file pickle_loads (files w') "my_address_book"
  = Return (_address_book w').
Proof.
  intros Hf Hn Hp Hc Hrt.
  pose proof (change_phone_says_changed _ _ _ _ _ _ _ _ _ Hf Hn Hp Hc) as Hos.
  rewrite (change_phone_changed pickle_dumps os _ _ _ _ _ _ Hf Hn Hp Hos) in Hc.
  injection Hc as <-. simpl in *.
  rewrite (read_contacts_from_file_present _ _ _ _ (lookup_insert_eq _ _ _)).
  by rewrite Hrt.
Qed.

Lemma change_phone_then_load_witness :
  read_contacts_from_file RefCodec.loads
    (files (change_phone RefCodec.dumps os_writes ["Bob"; "12"]%string sample_world).2)
    "my_address_book"
  = Return (_address_book (change_phone RefCodec.dumps os_writes ["Bob"; "12"]%string sample_world).2).
Proof.
  apply (change_phone_then_load RefCodec.dumps os_writes RefCodec.loads "Bob" "12" sample_world
           (change_phone RefCodec.dumps os_writes ["Bob"; "12"]%string sample_world).2
           (mkRecord (mkName "Bob") [mkPhone "0123456789"]
              (Some (mkBirthday (VStr "17.03.1990"))))
           (mkPhone "0123456789") []).
  - reflexivity.
  - reflexivity.
  - reflexivity.
  - vm_compute. reflexivity.
  - vm_compute. reflexivity.
Defined.

(** ** The commands keep the book well formed *)

Section CommandsKeepBook.
Variable pickle_dumps : pydict Record_ -> list Byte.byte.
Variable os : filesystem -> string -> os_write.

Lemma book_ok_add_record record self : book_ok self -> book_ok (add_record record self).
Proof.
  intros [Hnd Hall]. split; [by apply add_record_keys_unique|].
  unfold add_record. simpl. by apply dict_setitem_Forall.
Qed.

Lemma find_Some_name name_arg self r :
  Forall (fun kv => fst kv = value (name (snd kv))) (data self) ->
  find name_arg self = Return (Some r) -> value (name r) = name_arg.
Proof.
  intros Hall. rewrite find_Return. intros [= H].
  destruct (List.find _ (data self)) as [[k r']|] eqn:E; [|done].
  simpl in H. injection H as ->.
  apply find_some in E as [Hin Hk]. apply String.eqb_eq in Hk. simpl in Hk.
  rewrite Forall_forall in Hall. apply list_elem_of_In in Hin.
  apply Hall in Hin. simpl in *. congruence.
Qed.

Lemma book_ok_setitem_same name_arg self r r' :
  book_ok self -> find name_arg self = Return (Some r) -> name r' = name r ->
  book_ok (mkAddressBook (dict_setitem name_arg r' (data self))).
Proof.
  intros [Hnd Hall] Hf Hname. split; simpl.
  - rewrite dict_setitem_keys.
    assert (dict_contains name_arg (data self) = true) as ->; [|done].
    unfold find in Hf. by destruct (dict_contains name_arg _).
  - apply dict_setitem_Forall; [|done]. simpl. rewrite Hname.
    symmetry. by eapply find_Some_name.
Qed.

Lemma add_contact_keeps : keeps_book_ok add_contact.
Proof.
  intros args w Hok. unfold add_contact, errors_commands, call2.
  destruct args as [|n [|p [|x args]]]; try done.
  unfold add_contact_try.
  destruct (negb (str_isalpha n) || negb (str_isnumeric p)); [done|].
  destruct (Record_init n None) as [r|e]; [|by destruct e as [?|?|?| | | | |? ? []]].
  destruct (add_phone p r) as [[[]|e] r'] eqn:E; [|by destruct e as [?|?|?| | | | |? ? []]].
  simpl. by apply book_ok_add_record.
Qed.

Lemma change_phone_keeps : keeps_book_ok (change_phone pickle_dumps os).
Proof.
  intros args w Hok. unfold change_phone, errors_commands, call2.
  destruct args as [|n [|p [|x args]]]; try done.
  unfold change_phone_try.
  destruct (find_outcome n (_address_book w)) as [[r|] Hf]; rewrite Hf; [|done].
  destruct (negb (str_isnumeric p)); [done|].
  destruct (phones r) as [|q qs] eqn:Hp; [done|].
  rewrite list_getitem_head. cbv iota beta.
  rewrite (edit_phone_first q qs p r Hp). unfold write_to_file_os.
  cbn [_address_book files].
  destruct (os (files w) "my_address_book"); simpl; by eapply book_ok_setitem_same.
Qed.

Lemma show_phone_keeps : keeps_book_ok show_phone.
Proof.
  intros args w Hok. unfold show_phone, errors_commands, call1.
  destruct args as [|n [|x args]]; try done.
  unfold show_phone_try.
  destruct (find_outcome n (_address_book w)) as [[r|] Hf]; rewrite Hf; [|done].
  destruct (phones r) as [|q qs] eqn:Hp; [done|]. by rewrite list_getitem_head.
Qed.

Lemma show_all_keeps : keeps_book_ok show_all.
Proof.
  intros args w Hok. unfold show_all, errors_commands, call0.
  destruct args as [|x args]; [|done].
  unfold show_all_try. destruct (data (_address_book w)) as [|kv items]; [done|].
  by destruct (comprehension show_all_item (kv :: items))
    as [lines|[?|?|?| | | | |? ? []]].
Qed.

Lemma call0_keeps text : keeps_book_ok (call0 (fun w => (Return text, w))).
Proof. intros args w Hok. by destruct args. Qed.

Lemma users_commands_keep :
  Forall (fun kv => keeps_book_ok (snd kv)) (users_commands pickle_dumps os).
Proof.
  unfold users_commands.
  repeat (apply Forall_cons; split; [simpl|]); [..|by apply Forall_nil].
  - apply (call0_keeps "How can I help you?").
  - apply add_contact_keeps.
  - apply change_phone_keeps.
  - apply show_phone_keeps.
  - apply show_all_keeps.
  - apply (call0_keeps "Good bye!").
  - apply (call0_keeps "Good bye!").
  - apply (call0_keeps "Good bye!").
Qed.

Lemma dict_getitem_Forall {V} (P : string * V -> Prop) (d : pydict V) k v :
  Forall P d -> dict_getitem k d = Return v -> exists k', P (k', v).
Proof.
  induction 1 as [|[k0 v0] d HP Hd IH]; simpl; [done|].
  destruct (String.eqb k k0); [intros [= <-]; eauto|done].
Qed.

End CommandsKeepBook.

(** X24.  Whatever the words of the line, [parser_command] leaves the
    book with distinct keys and every record under its own name, when it
    found it so. *)
Theorem parser_command_keeps_book_ok
    (pickle_dumps : pydict Record_ -> list Byte.byte)
    (os : filesystem -> string -> os_write)
    (user_command : list string) (w : world) :
  book_ok (_address_book w) ->
  book_ok (_address_book (parser_command pickle_dumps os user_command w).2).
Proof.
  intros Hok. destruct user_command as [|command args]; [done|].
  pose proof (users_commands_keep pickle_dumps os) as Hall.
  destruct (dict_contains command (users_commands pickle_dumps os)) eqn:Hc.
  - destruct (dict_getitem command (users_commands pickle_dumps os)) as [func|e] eqn:Hg.
    + rewrite (parser_command_key _ _ _ func) by done.
      destruct (dict_getitem_Forall _ _ _ _ Hall Hg) as [k' Hk]. by apply Hk.
    + unfold parser_command. by rewrite list_getitem_head, Hc, Hg.
  - rewrite parser_command_unknown by done.
    destruct args as [|second [|third args]]; try done.
    destruct (dict_contains (command ++ " " ++ second)%string
                (users_commands pickle_dumps os)); [|done].
    destruct (dict_getitem (command ++ " " ++ second)%string
                (users_commands pickle_dumps os)) as [func|e] eqn:Hg; [|done].
    destruct (dict_getitem_Forall _ _ _ _ Hall Hg) as [k' Hk]. by apply Hk.
Qed.

Lemma parser_command_keeps_book_ok_witness :
  book_ok (_address_book
             (parser_command RefCodec.dumps os_writes ["change"; "Bob"; "12"]%string sample_world).2).
Proof.
  apply (parser_command_keeps_book_ok RefCodec.dumps os_writes ["change"; "Bob"; "12"]%string
           sample_world).
  split.
  - apply (bool_decide_unpack _). vm_compute. exact I.
  - repeat constructor.
Defined.
